(** * Water-balance engine of the HOPE Rwanda stormwater sandbox

    A shallow embedding of the calculation part of [src/Simulation.py]
    (lines 45-202): the sidebar branches that zero the parameters of a
    disabled measure, the SCS curve-number runoff depth, the rooftop
    harvesting balance, the Huegelkultur storage and interception, the
    permeable-pavement infiltration, the vetiver infiltration, the
    combination into the effective runoff and the road protection score;
    and of the loop that lays out the stacked bar chart (lines 238-255).

    Numbers.  The script computes with Python floats and ints.  It is
    embedded twice.

    - Over exact rationals ([Q]): every arithmetic operation is the exact
      one, literals such as [0.2] and [1e-9] denote the decimal fractions
      they spell, and equality of results is [Qeq] ([==]).  The two counts
      ([n_units], [n_beds]) stay integers.  Python's [x / y] on floats
      raises [ZeroDivisionError] when [y] is zero; that is kept, as a
      result in [option].  The theorems quantified over all inputs are
      proved here.  They are stated so that rounding cannot break them:
      an equality is between a variable of the script and the expression
      the script assigns to it, operation for operation; an order follows
      from steps that are each monotone; where an identity of the reals
      only holds up to rounding it is stated with a relative tolerance of
      1e-9, on a range of magnitudes where a double neither overflows nor
      loses precision to underflow.

    - Over binary64 ([Module Double], on the primitive floats): the same
      lines with the operations Python performs.  It runs, digit for
      digit, and it is where a statement that holds of the reals and not of
      the script is refuted on a concrete input. *)

From Stdlib Require Import QArith Qminmax Lqa ZArith Lia Bool List.
From Stdlib Require Import Floats.

Local Open Scope Q_scope.

(** ** Division that can fault, and sequencing of faults *)

(** [x / y] of the script: [None] stands for [ZeroDivisionError]. *)
Definition fdiv (x y : Q) : option Q :=
  if Qeq_bool y 0 then None else Some (x / y).

Definition bind {A B : Type} (m : option A) (k : A -> option B) : option B :=
  match m with
  | Some a => k a
  | None => None
  end.

Notation "x <- m ;; k" := (bind m (fun x => k))
  (at level 61, m at next level, right associativity).

(** Python's [bool * float]: [True] counts as 1, [False] as 0. *)
Definition of_bool (b : bool) : Q := if b then 1 else 0.

(** [np.clip(x, lo, hi)], which is [minimum(maximum(x, lo), hi)]. *)
Definition np_clip (x lo hi : Q) : Q := Qmin (Qmax x lo) hi.

(** ** Sidebar: what the widgets return (lines 45-100) *)

Inductive slope_note : Type := Low | Moderate | Steep.

(** The dictionary lookup of line 53. *)
Definition slope_factor_of (n : slope_note) : Q :=
  match n with
  | Low => 0.95
  | Moderate => 1.00
  | Steep => 1.05
  end.

(** The values the widgets hand back.  The widgets of a measure are read
    only when its toggle is on; the fields [w_*] are what they return in
    that case.  Shares entered in percent keep their percent value here. *)
Record Widgets : Type := {
  w_P_mm : Q;
  w_catchment_area_m2 : Q;
  w_roof_area_m2 : Q;
  w_base_CN : Q;
  w_slope_note : slope_note;
  w_harv_on : bool;
  w_storage_per_unit_L : Q;
  w_n_units : Z;
  w_first_flush_mm : Q;
  w_vetiver_on : bool;
  w_vetiver_CN_delta : Q;
  w_vetiver_infiltration_pct : Q;
  w_hug_on : bool;
  w_n_beds : Z;
  w_bed_length_m : Q;
  w_bed_width_m : Q;
  w_bed_core_depth_m : Q;
  w_core_porosity : Q;
  w_border_loss_factor : Q;
  w_hug_intercept_pct : Q;
  w_pp_on : bool;
  w_pp_CN_delta : Q;
  w_pp_infiltration_pct : Q;
  w_pp_fraction_of_catch : Q
}.

(** The module-level variables after line 100. *)
Record Settings : Type := {
  P_mm : Q;
  catchment_area_m2 : Q;
  roof_area_m2 : Q;
  base_CN : Q;
  slope_factor : Q;
  harv_on : bool;
  storage_per_unit_L : Q;
  n_units : Z;
  first_flush_mm : Q;
  vetiver_on : bool;
  vetiver_CN_delta : Q;
  vetiver_infiltration_boost : Q;
  hug_on : bool;
  n_beds : Z;
  bed_length_m : Q;
  bed_width_m : Q;
  bed_core_depth_m : Q;
  core_porosity : Q;
  border_loss_factor : Q;
  hug_intercept_share : Q;
  pp_on : bool;
  pp_CN_delta : Q;
  pp_infiltration_share : Q;
  pp_fraction_of_catch : Q
}.

(** Lines 45-100: each [if <measure>_on: ... else: ...] keeps the widget
    values when the toggle is on and assigns zeros otherwise. *)
Definition sidebar (w : Widgets) : Settings := {|
  P_mm := w_P_mm w;
  catchment_area_m2 := w_catchment_area_m2 w;
  roof_area_m2 := w_roof_area_m2 w;
  base_CN := w_base_CN w;
  slope_factor := slope_factor_of (w_slope_note w);
  harv_on := w_harv_on w;
  storage_per_unit_L := if w_harv_on w then w_storage_per_unit_L w else 0.0;
  n_units := if w_harv_on w then w_n_units w else 0%Z;
  first_flush_mm := if w_harv_on w then w_first_flush_mm w else 0;
  vetiver_on := w_vetiver_on w;
  vetiver_CN_delta := if w_vetiver_on w then w_vetiver_CN_delta w else 0;
  vetiver_infiltration_boost :=
    if w_vetiver_on w then w_vetiver_infiltration_pct w / 100.0 else 0.0;
  hug_on := w_hug_on w;
  n_beds := if w_hug_on w then w_n_beds w else 0%Z;
  bed_length_m := if w_hug_on w then w_bed_length_m w else 0.0;
  bed_width_m := if w_hug_on w then w_bed_width_m w else 0.0;
  bed_core_depth_m := if w_hug_on w then w_bed_core_depth_m w else 0.0;
  core_porosity := if w_hug_on w then w_core_porosity w else 0.0;
  border_loss_factor := if w_hug_on w then w_border_loss_factor w else 0.0;
  hug_intercept_share :=
    if w_hug_on w then w_hug_intercept_pct w / 100.0 else 0.0;
  pp_on := w_pp_on w;
  pp_CN_delta := if w_pp_on w then w_pp_CN_delta w else 0;
  pp_infiltration_share :=
    if w_pp_on w then w_pp_infiltration_pct w / 100.0 else 0.0;
  pp_fraction_of_catch := if w_pp_on w then w_pp_fraction_of_catch w else 0.0
|}.

(** ** Helpers (lines 105-117) *)

(** Potential maximum retention and initial abstraction, the two locals of
    [scs_runoff_depth_mm], given the quotient [25400.0 / CN]. *)
Definition retention_S (quot : Q) : Q := quot - 254.0.
Definition abstraction_Ia (S : Q) : Q := 0.2 * S.

Definition scs_runoff_depth_mm (P CN : Q) : option Q :=
  quot <- fdiv 25400.0 CN ;;
  let S := retention_S quot in
  let Ia := abstraction_Ia S in
  if Qle_bool P Ia then Some 0.0
  else fdiv ((P - Ia) ^ 2) (P + 0.8 * S).

Definition liters (m3 : Q) : Q := m3 * 1000.0.

Definition m3_from_mm_over_area (mm area_m2 : Q) : Q :=
  (mm / 1000.0) * area_m2.

(** ** The engine (lines 122-202) *)

Section Engine.

Variable s : Settings.

(** 1) effective curve number, lines 122-129: [CN_effective] is assigned
    four times; each stage is named after what it has applied. *)
Definition CN_after_vetiver : Q :=
  let CN_effective := base_CN s in
  if vetiver_on s
  then Qmax 30 (CN_effective - vetiver_CN_delta s)
  else CN_effective.

Definition CN_after_pp : Q :=
  let CN_effective := CN_after_vetiver in
  if pp_on s
  then (1 - pp_fraction_of_catch s) * CN_effective
       + pp_fraction_of_catch s * Qmax 30 (CN_effective - pp_CN_delta s)
  else CN_effective.

Definition CN_effective : Q := CN_after_pp * slope_factor s.

Definition Q_mm : option Q := scs_runoff_depth_mm (P_mm s) CN_effective.

(** 2) rooftop harvesting, lines 137-141 *)
Definition harvest_P_effective_mm : Q :=
  if harv_on s then Qmax 0.0 (P_mm s - first_flush_mm s) else 0.0.

Definition roof_yield_m3 : Q :=
  m3_from_mm_over_area harvest_P_effective_mm (roof_area_m2 s).

Definition total_rooftop_storage_m3 : Q :=
  liters (storage_per_unit_L s * inject_Z (n_units s)) / 1000.0.

Definition captured_roof_m3 : Q :=
  if harv_on s then Qmin roof_yield_m3 total_rooftop_storage_m3 else 0.0.

Definition roof_overflow_m3 : Q :=
  Qmax 0.0 (roof_yield_m3 - captured_roof_m3).

(** 3) Huegelkultur storage, lines 146-147 *)
Definition hugel_core_vol_m3 : Q :=
  inject_Z (n_beds s) * bed_length_m s * bed_width_m s * bed_core_depth_m s.

Definition hugel_storage_m3 : Q :=
  hugel_core_vol_m3 * core_porosity s * (1.0 - border_loss_factor s).

(** 4) permeable pavement, lines 156-157 *)
Definition pp_incident_rain_m3 : Q :=
  if pp_on s
  then m3_from_mm_over_area (P_mm s)
         (catchment_area_m2 s * pp_fraction_of_catch s)
  else 0.0.

Definition pp_direct_infiltration_m3 : Q :=
  if pp_on s then pp_incident_rain_m3 * pp_infiltration_share s else 0.0.

(** What follows depends on the baseline runoff volume of line 132. *)
Section AfterBaseline.

Variable baseline : Q.

(** lines 149-150 *)
Definition hugel_intercepted_m3 : Q :=
  if hug_on s
  then Qmin (baseline * hug_intercept_share s) hugel_storage_m3
  else 0.0.

Definition hugel_overflow_m3 : Q :=
  Qmax 0.0
    (baseline * hug_intercept_share s - hugel_intercepted_m3).

(** 5) vetiver, lines 163-164 *)
Definition remaining_runoff_after_hugel : Q :=
  Qmax 0.0 (baseline - hugel_intercepted_m3).

Definition vetiver_extra_infiltration_m3 : Q :=
  if vetiver_on s
  then remaining_runoff_after_hugel * vetiver_infiltration_boost s
  else 0.0.

(** 6) combination, lines 178-186: the variable is assigned three
    times. *)
Definition effective_runoff_m3 : Q :=
  let effective_runoff_m3 :=
    Qmax 0.0 (baseline - hugel_intercepted_m3
              - vetiver_extra_infiltration_m3)
    + hugel_overflow_m3 in
  let effective_runoff_m3 :=
    Qmax 0.0 (effective_runoff_m3 - pp_direct_infiltration_m3) in
  effective_runoff_m3 + roof_overflow_m3.

(** line 196 *)
Definition reduction_ratio : option Q :=
  q <- fdiv effective_runoff_m3 (baseline + 1e-9) ;;
  Some (1.0 - q).

(** The four terms of lines 197-200. *)
Definition score_runoff_term (ratio : Q) : Q := 40 * Qmax 0.0 ratio.
Definition score_vetiver_term : Q :=
  20 * (if vetiver_on s then 1.0 else 0.0).
Definition score_pp_term : Q := 20 * pp_fraction_of_catch s.
Definition score_hugel_term : option Q :=
  q <- fdiv hugel_intercepted_m3 (hugel_storage_m3 + 1e-9) ;;
  Some (20 * Qmin 1.0 (of_bool (hug_on s) * q)).

(** lines 197-202 *)
Definition score : option Q :=
  ratio <- reduction_ratio ;;
  hugel <- score_hugel_term ;;
  let score :=
    score_runoff_term ratio + score_vetiver_term + score_pp_term
    + hugel in
  Some (np_clip score 0 100).

End AfterBaseline.

End Engine.

(** The values the script shows, plus the reduction ratio. *)
Record Balance : Type := {
  r_CN_effective : Q;
  r_baseline_runoff_m3 : Q;
  r_roof_yield_m3 : Q;
  r_captured_roof_m3 : Q;
  r_roof_overflow_m3 : Q;
  r_hugel_storage_m3 : Q;
  r_hugel_intercepted_m3 : Q;
  r_hugel_overflow_m3 : Q;
  r_pp_direct_infiltration_m3 : Q;
  r_vetiver_extra_infiltration_m3 : Q;
  r_effective_runoff_m3 : Q;
  r_reduction_ratio : Q;
  r_score : Q
}.

(** Line 132. *)
Definition baseline_runoff_m3 (s : Settings) : option Q :=
  q <- Q_mm s ;;
  Some (m3_from_mm_over_area q (catchment_area_m2 s)).

(** One run of lines 122-202 in the order of the script.  A fault anywhere
    ends the run: nothing is shown. *)
Definition evaluate (s : Settings) : option Balance :=
  b <- baseline_runoff_m3 s ;;
  ratio <- reduction_ratio s b ;;
  sc <- score s b ;;
  Some {|
    r_CN_effective := CN_effective s;
    r_baseline_runoff_m3 := b;
    r_roof_yield_m3 := roof_yield_m3 s;
    r_captured_roof_m3 := captured_roof_m3 s;
    r_roof_overflow_m3 := roof_overflow_m3 s;
    r_hugel_storage_m3 := hugel_storage_m3 s;
    r_hugel_intercepted_m3 := hugel_intercepted_m3 s b;
    r_hugel_overflow_m3 := hugel_overflow_m3 s b;
    r_pp_direct_infiltration_m3 := pp_direct_infiltration_m3 s;
    r_vetiver_extra_infiltration_m3 := vetiver_extra_infiltration_m3 s b;
    r_effective_runoff_m3 := effective_runoff_m3 s b;
    r_reduction_ratio := ratio;
    r_score := sc
  |}.

(** The script as a whole: widgets in, shown values out. *)
Definition run (w : Widgets) : option Balance := evaluate (sidebar w).

(** ** Valid inputs

    The ranges of the data model: storm depth and catchment area positive,
    base curve number in [30,100), areas, volumes, counts and reduction
    points non-negative, bed dimensions positive, porosity in (0,1],
    border loss in [0,1), every other share or fraction in [0,1].  The
    shares entered in percent are valid between 0 and 100. *)

Definition Qlt_bool (x y : Q) : bool := negb (Qle_bool y x).

Record valid (w : Widgets) : Prop := {
  v_P : 0 < w_P_mm w;
  v_area : 0 < w_catchment_area_m2 w;
  v_roof : 0 <= w_roof_area_m2 w;
  v_CN_lo : 30 <= w_base_CN w;
  v_CN_hi : w_base_CN w < 100;
  v_unit : 0 <= w_storage_per_unit_L w;
  v_units : (0 <= w_n_units w)%Z;
  v_flush : 0 <= w_first_flush_mm w;
  v_vet_delta : 0 <= w_vetiver_CN_delta w;
  v_vet_lo : 0 <= w_vetiver_infiltration_pct w;
  v_vet_hi : w_vetiver_infiltration_pct w <= 100;
  v_beds : (0 <= w_n_beds w)%Z;
  v_len : 0 < w_bed_length_m w;
  v_wid : 0 < w_bed_width_m w;
  v_dep : 0 < w_bed_core_depth_m w;
  v_por_lo : 0 < w_core_porosity w;
  v_por_hi : w_core_porosity w <= 1;
  v_loss_lo : 0 <= w_border_loss_factor w;
  v_loss_hi : w_border_loss_factor w < 1;
  v_hug_lo : 0 <= w_hug_intercept_pct w;
  v_hug_hi : w_hug_intercept_pct w <= 100;
  v_pp_delta : 0 <= w_pp_CN_delta w;
  v_ppi_lo : 0 <= w_pp_infiltration_pct w;
  v_ppi_hi : w_pp_infiltration_pct w <= 100;
  v_ppf_lo : 0 <= w_pp_fraction_of_catch w;
  v_ppf_hi : w_pp_fraction_of_catch w <= 1
}.

(** The same ranges as a test that runs. *)
Definition validb (w : Widgets) : bool :=
  Qlt_bool 0 (w_P_mm w) && Qlt_bool 0 (w_catchment_area_m2 w)
  && Qle_bool 0 (w_roof_area_m2 w)
  && Qle_bool 30 (w_base_CN w) && Qlt_bool (w_base_CN w) 100
  && Qle_bool 0 (w_storage_per_unit_L w) && (0 <=? w_n_units w)%Z
  && Qle_bool 0 (w_first_flush_mm w)
  && Qle_bool 0 (w_vetiver_CN_delta w)
  && Qle_bool 0 (w_vetiver_infiltration_pct w)
  && Qle_bool (w_vetiver_infiltration_pct w) 100
  && (0 <=? w_n_beds w)%Z
  && Qlt_bool 0 (w_bed_length_m w) && Qlt_bool 0 (w_bed_width_m w)
  && Qlt_bool 0 (w_bed_core_depth_m w)
  && Qlt_bool 0 (w_core_porosity w) && Qle_bool (w_core_porosity w) 1
  && Qle_bool 0 (w_border_loss_factor w)
  && Qlt_bool (w_border_loss_factor w) 1
  && Qle_bool 0 (w_hug_intercept_pct w)
  && Qle_bool (w_hug_intercept_pct w) 100
  && Qle_bool 0 (w_pp_CN_delta w)
  && Qle_bool 0 (w_pp_infiltration_pct w)
  && Qle_bool (w_pp_infiltration_pct w) 100
  && Qle_bool 0 (w_pp_fraction_of_catch w)
  && Qle_bool (w_pp_fraction_of_catch w) 1.

(** ** The scenarios of the specification *)

(** The widgets at their defaults (the [value] argument of each widget),
    every toggle off. *)
Definition defaults_all_off : Widgets := {|
  w_P_mm := 80;
  w_catchment_area_m2 := 3000.0;
  w_roof_area_m2 := 400.0;
  w_base_CN := 85;
  w_slope_note := Moderate;
  w_harv_on := false;
  w_storage_per_unit_L := 1000.0;
  w_n_units := 10;
  w_first_flush_mm := 2;
  w_vetiver_on := false;
  w_vetiver_CN_delta := 4;
  w_vetiver_infiltration_pct := 10;
  w_hug_on := false;
  w_n_beds := 20;
  w_bed_length_m := 6.0;
  w_bed_width_m := 1.2;
  w_bed_core_depth_m := 0.6;
  w_core_porosity := 0.50;
  w_border_loss_factor := 0.15;
  w_hug_intercept_pct := 30;
  w_pp_on := false;
  w_pp_CN_delta := 8;
  w_pp_infiltration_pct := 40;
  w_pp_fraction_of_catch := 0.25
|}.

Definition with_harv_on (w : Widgets) : Widgets := {|
  w_P_mm := w_P_mm w;
  w_catchment_area_m2 := w_catchment_area_m2 w;
  w_roof_area_m2 := w_roof_area_m2 w;
  w_base_CN := w_base_CN w;
  w_slope_note := w_slope_note w;
  w_harv_on := true;
  w_storage_per_unit_L := w_storage_per_unit_L w;
  w_n_units := w_n_units w;
  w_first_flush_mm := w_first_flush_mm w;
  w_vetiver_on := w_vetiver_on w;
  w_vetiver_CN_delta := w_vetiver_CN_delta w;
  w_vetiver_infiltration_pct := w_vetiver_infiltration_pct w;
  w_hug_on := w_hug_on w;
  w_n_beds := w_n_beds w;
  w_bed_length_m := w_bed_length_m w;
  w_bed_width_m := w_bed_width_m w;
  w_bed_core_depth_m := w_bed_core_depth_m w;
  w_core_porosity := w_core_porosity w;
  w_border_loss_factor := w_border_loss_factor w;
  w_hug_intercept_pct := w_hug_intercept_pct w;
  w_pp_on := w_pp_on w;
  w_pp_CN_delta := w_pp_CN_delta w;
  w_pp_infiltration_pct := w_pp_infiltration_pct w;
  w_pp_fraction_of_catch := w_pp_fraction_of_catch w
|}.

(** Harvesting on, roof 400 m2, 10 units of 1000 L, first flush 2 mm,
    P = 80 mm. *)
Definition scenario_harvesting : Widgets := with_harv_on defaults_all_off.

(** Both runs return and the first depth is at most the second. *)
Definition depth_le (a b : option Q) : Prop :=
  match a, b with
  | Some x, Some y => x <= y
  | _, _ => False
  end.


(** ** The combiner in the words of the specification *)

Definition combiner_R1 (baseline intercepted hedgerowExtra moundOverflow : Q)
  : Q :=
  Qmax 0 (baseline - intercepted - hedgerowExtra) + moundOverflow.

Definition combiner_R2 (R1 pavementInfiltration : Q) : Q :=
  Qmax 0 (R1 - pavementInfiltration).

Definition combiner_Reffective (R2 roofOverflow : Q) : Q :=
  R2 + roofOverflow.

(** ** Further inputs *)

(** Storm of 20 mm on a base curve number of 70: no runoff from the road.
    Harvesting is on with no tank at all, so the whole roof yield
    overflows. *)
Definition dry_road_roof_overflow : Widgets := {|
  w_P_mm := 20;
  w_catchment_area_m2 := 3000.0;
  w_roof_area_m2 := 400.0;
  w_base_CN := 70;
  w_slope_note := Moderate;
  w_harv_on := true;
  w_storage_per_unit_L := 1000.0;
  w_n_units := 0;
  w_first_flush_mm := 2;
  w_vetiver_on := false;
  w_vetiver_CN_delta := 4;
  w_vetiver_infiltration_pct := 10;
  w_hug_on := false;
  w_n_beds := 20;
  w_bed_length_m := 6.0;
  w_bed_width_m := 1.2;
  w_bed_core_depth_m := 0.6;
  w_core_porosity := 0.50;
  w_border_loss_factor := 0.15;
  w_hug_intercept_pct := 30;
  w_pp_on := false;
  w_pp_CN_delta := 8;
  w_pp_infiltration_pct := 40;
  w_pp_fraction_of_catch := 0.25
|}.

(** The same dry road with the default ten tanks: nothing overflows. *)
Definition dry_road : Widgets := {|
  w_P_mm := 20;
  w_catchment_area_m2 := 3000.0;
  w_roof_area_m2 := 400.0;
  w_base_CN := 70;
  w_slope_note := Moderate;
  w_harv_on := true;
  w_storage_per_unit_L := 1000.0;
  w_n_units := 10;
  w_first_flush_mm := 2;
  w_vetiver_on := true;
  w_vetiver_CN_delta := 4;
  w_vetiver_infiltration_pct := 10;
  w_hug_on := true;
  w_n_beds := 20;
  w_bed_length_m := 6.0;
  w_bed_width_m := 1.2;
  w_bed_core_depth_m := 0.6;
  w_core_porosity := 0.50;
  w_border_loss_factor := 0.15;
  w_hug_intercept_pct := 30;
  w_pp_on := true;
  w_pp_CN_delta := 8;
  w_pp_infiltration_pct := 40;
  w_pp_fraction_of_catch := 0.25
|}.

(** The defaults with every measure on. *)
Definition defaults_all_on : Widgets := {|
  w_P_mm := 80;
  w_catchment_area_m2 := 3000.0;
  w_roof_area_m2 := 400.0;
  w_base_CN := 85;
  w_slope_note := Moderate;
  w_harv_on := true;
  w_storage_per_unit_L := 1000.0;
  w_n_units := 10;
  w_first_flush_mm := 2;
  w_vetiver_on := true;
  w_vetiver_CN_delta := 4;
  w_vetiver_infiltration_pct := 10;
  w_hug_on := true;
  w_n_beds := 20;
  w_bed_length_m := 6.0;
  w_bed_width_m := 1.2;
  w_bed_core_depth_m := 0.6;
  w_core_porosity := 0.50;
  w_border_loss_factor := 0.15;
  w_hug_intercept_pct := 30;
  w_pp_on := true;
  w_pp_CN_delta := 8;
  w_pp_infiltration_pct := 40;
  w_pp_fraction_of_catch := 0.25
|}.

(** A steep site whose slope-adjusted curve number is 101.6, under a
    storm of 3.2 mm; every measure off. *)
Definition steep_small_storm : Widgets := {|
  w_P_mm := 3.2;
  w_catchment_area_m2 := 3000.0;
  w_roof_area_m2 := 400.0;
  w_base_CN := 2032 # 21;
  w_slope_note := Steep;
  w_harv_on := false;
  w_storage_per_unit_L := 1000.0;
  w_n_units := 10;
  w_first_flush_mm := 2;
  w_vetiver_on := false;
  w_vetiver_CN_delta := 4;
  w_vetiver_infiltration_pct := 10;
  w_hug_on := false;
  w_n_beds := 20;
  w_bed_length_m := 6.0;
  w_bed_width_m := 1.2;
  w_bed_core_depth_m := 0.6;
  w_core_porosity := 0.50;
  w_border_loss_factor := 0.15;
  w_hug_intercept_pct := 30;
  w_pp_on := false;
  w_pp_CN_delta := 8;
  w_pp_infiltration_pct := 40;
  w_pp_fraction_of_catch := 0.25
|}.

(** ** The ranges of the widgets (lines 45-98)

    Every [slider] and [number_input] is given a minimum and a maximum and
    returns a value between them.  The step of a widget is left out: the
    ranges below contain every value a widget can return. *)

Record widget_range (w : Widgets) : Prop := {
  wr_P : 20 <= w_P_mm w <= 200;
  wr_area : 100.0 <= w_catchment_area_m2 w <= 20000.0;
  wr_roof : 0.0 <= w_roof_area_m2 w <= 5000.0;
  wr_CN : 70 <= w_base_CN w <= 95;
  wr_unit : 200.0 <= w_storage_per_unit_L w <= 10000.0;
  wr_units : (0 <= w_n_units w <= 500)%Z;
  wr_flush : 0 <= w_first_flush_mm w <= 5;
  wr_vet_delta : 0 <= w_vetiver_CN_delta w <= 10;
  wr_vet_pct : 0 <= w_vetiver_infiltration_pct w <= 30;
  wr_beds : (0 <= w_n_beds w <= 200)%Z;
  wr_len : 1.0 <= w_bed_length_m w <= 50.0;
  wr_wid : 0.5 <= w_bed_width_m w <= 5.0;
  wr_dep : 0.1 <= w_bed_core_depth_m w <= 2.0;
  wr_por : 0.20 <= w_core_porosity w <= 0.80;
  wr_loss : 0.0 <= w_border_loss_factor w <= 0.5;
  wr_hug_pct : 0 <= w_hug_intercept_pct w <= 80;
  wr_pp_delta : 0 <= w_pp_CN_delta w <= 20;
  wr_pp_pct : 0 <= w_pp_infiltration_pct w <= 90;
  wr_pp_frac : 0.0 <= w_pp_fraction_of_catch w <= 1.0
}.

Definition between_bool (lo x hi : Q) : bool :=
  Qle_bool lo x && Qle_bool x hi.

Definition widget_rangeb (w : Widgets) : bool :=
  between_bool 20 (w_P_mm w) 200
  && between_bool 100.0 (w_catchment_area_m2 w) 20000.0
  && between_bool 0.0 (w_roof_area_m2 w) 5000.0
  && between_bool 70 (w_base_CN w) 95
  && between_bool 200.0 (w_storage_per_unit_L w) 10000.0
  && ((0 <=? w_n_units w)%Z && (w_n_units w <=? 500)%Z)
  && between_bool 0 (w_first_flush_mm w) 5
  && between_bool 0 (w_vetiver_CN_delta w) 10
  && between_bool 0 (w_vetiver_infiltration_pct w) 30
  && ((0 <=? w_n_beds w)%Z && (w_n_beds w <=? 200)%Z)
  && between_bool 1.0 (w_bed_length_m w) 50.0
  && between_bool 0.5 (w_bed_width_m w) 5.0
  && between_bool 0.1 (w_bed_core_depth_m w) 2.0
  && between_bool 0.20 (w_core_porosity w) 0.80
  && between_bool 0.0 (w_border_loss_factor w) 0.5
  && between_bool 0 (w_hug_intercept_pct w) 80
  && between_bool 0 (w_pp_CN_delta w) 20
  && between_bool 0 (w_pp_infiltration_pct w) 90
  && between_bool 0.0 (w_pp_fraction_of_catch w) 1.0.

(** ** One toggle flipped, everything else as it is *)


(** ** The stacked bar chart (lines 238-255) *)

Local Open Scope list_scope.

(** The keys of the dictionary [bars], in insertion order. *)
Inductive bar_label : Type :=
  | Tanks_rooftop
  | Hugel_intercepted
  | Permeable_infiltration
  | Vetiver_added_infiltration
  | Remaining_runoff.

(** [bars.items()], lines 238-244. *)
Definition bars (r : Balance) : list (bar_label * Q) :=
  (Tanks_rooftop, r_captured_roof_m3 r)
  :: (Hugel_intercepted, r_hugel_intercepted_m3 r)
  :: (Permeable_infiltration, r_pp_direct_infiltration_m3 r)
  :: (Vetiver_added_infiltration, r_vetiver_extra_infiltration_m3 r)
  :: (Remaining_runoff, r_effective_runoff_m3 r)
  :: nil.

(** What one turn of the loop draws: the bar [barh([0], [val], left=left)]
    and the x position [left + val/2] of its text. *)
Record segment : Type := {
  seg_label : bar_label;
  seg_left : Q;
  seg_width : Q;
  seg_text_x : Q
}.

(** The loop of lines 249-252: the segments drawn, in order, and the
    value of [left] when the loop ends. *)
Fixpoint draw_bars (left : Q) (items : list (bar_label * Q))
  : list segment * Q :=
  match items with
  | nil => (nil, left)
  | (label, val) :: rest =>
      let seg := {| seg_label := label; seg_left := left;
                    seg_width := val; seg_text_x := left + val / 2 |} in
      let (segs, left') := draw_bars (left + val) rest in
      (seg :: segs, left')
  end.

(** Line 248, a value the script computes and does not use. *)
Definition chart_total (r : Balance) : Q :=
  fold_right (fun item acc => snd item + acc) 0 (bars r) + 1e-9.

(** The chart: the segments and the limits [set_xlim(0, left * 1.05)]. *)
Definition chart_segments (r : Balance) : list segment :=
  fst (draw_bars 0.0 (bars r)).

Definition chart_xlim (r : Balance) : Q * Q :=
  (0, snd (draw_bars 0.0 (bars r)) * 1.05).

(** Sum of the widths of a list of items. *)
Definition widths_sum (items : list (bar_label * Q)) : Q :=
  fold_right (fun item acc => snd item + acc) 0 items.

(** Each segment starts where the one before it ends, the first one at
    [left]. *)
Fixpoint contiguous_from (left : Q) (segs : list segment) : Prop :=
  match segs with
  | nil => True
  | seg :: rest =>
      seg_left seg == left
      /\ contiguous_from (seg_left seg + seg_width seg) rest
  end.

(** Both runs return and the first depth is at most the second, up to a
    relative rounding tolerance of 1e-9. *)
Definition depth_le_within_rounding (a b : option Q) : Prop :=
  match a, b with
  | Some x, Some y => x <= y * (1 + 1e-9)
  | _, _ => False
  end.

(** * The script in double precision

    Python computes with IEEE 754 binary64: every operation below is the
    primitive binary64 one, rounding to nearest-even.  Integers the widgets
    return (storm depth, curve number, counts, points) are the doubles of
    the same value, which is what Python makes of them when they meet a
    float.  [x ** 2] is the correctly rounded square, and raises
    [OverflowError] when it leaves the range of a double. *)

Module Double.

#[local] Set Warnings "-inexact-float".

Local Open Scope float_scope.

(** The two exceptions arithmetic raises in the script. *)
Inductive exn : Type := ZeroDivisionError | OverflowError.

Inductive result (A : Type) : Type :=
  | Ok (a : A)
  | Raise (e : exn).

Arguments Ok {A} a.
Arguments Raise {A} e.

Definition bind {A B : Type} (m : result A) (k : A -> result B) : result B :=
  match m with
  | Ok a => k a
  | Raise e => Raise e
  end.

Local Notation "x <-- m ;; k" := (bind m (fun x => k))
  (at level 61, m at next level, right associativity).

(** [x / y] on floats: a zero divisor (of either sign) raises; an
    overflowing quotient is an infinity, silently. *)
Definition fdiv (x y : float) : result float :=
  if y =? 0 then Raise ZeroDivisionError else Ok (x / y).

(** [x ** 2] on floats: a finite [x] whose square overflows raises. *)
Definition fsquare (x : float) : result float :=
  let y := x * x in
  if is_infinity y && negb (is_infinity x) then Raise OverflowError
  else Ok y.

(** The builtins [max(a, b)] and [min(a, b)]: the first argument unless
    the second is greater (smaller). *)
Definition pymax (a b : float) : float := if a <? b then b else a.
Definition pymin (a b : float) : float := if b <? a then b else a.

(** [np.clip(x, lo, hi)]: a NaN stays a NaN. *)
Definition np_clip (x lo hi : float) : float :=
  if is_nan x then x else pymin (pymax x lo) hi.

Definition of_bool (b : bool) : float := if b then 1.0 else 0.0.

Definition slope_factor_of (n : slope_note) : float :=
  match n with
  | Low => 0.95
  | Moderate => 1.00
  | Steep => 1.05
  end.

Record Widgets : Type := {
  w_P_mm : float;
  w_catchment_area_m2 : float;
  w_roof_area_m2 : float;
  w_base_CN : float;
  w_slope_note : slope_note;
  w_harv_on : bool;
  w_storage_per_unit_L : float;
  w_n_units : float;
  w_first_flush_mm : float;
  w_vetiver_on : bool;
  w_vetiver_CN_delta : float;
  w_vetiver_infiltration_pct : float;
  w_hug_on : bool;
  w_n_beds : float;
  w_bed_length_m : float;
  w_bed_width_m : float;
  w_bed_core_depth_m : float;
  w_core_porosity : float;
  w_border_loss_factor : float;
  w_hug_intercept_pct : float;
  w_pp_on : bool;
  w_pp_CN_delta : float;
  w_pp_infiltration_pct : float;
  w_pp_fraction_of_catch : float
}.

Record Settings : Type := {
  P_mm : float;
  catchment_area_m2 : float;
  roof_area_m2 : float;
  base_CN : float;
  slope_factor : float;
  harv_on : bool;
  storage_per_unit_L : float;
  n_units : float;
  first_flush_mm : float;
  vetiver_on : bool;
  vetiver_CN_delta : float;
  vetiver_infiltration_boost : float;
  hug_on : bool;
  n_beds : float;
  bed_length_m : float;
  bed_width_m : float;
  bed_core_depth_m : float;
  core_porosity : float;
  border_loss_factor : float;
  hug_intercept_share : float;
  pp_on : bool;
  pp_CN_delta : float;
  pp_infiltration_share : float;
  pp_fraction_of_catch : float
}.

(** Lines 45-100. *)
Definition sidebar (w : Widgets) : Settings := {|
  P_mm := w_P_mm w;
  catchment_area_m2 := w_catchment_area_m2 w;
  roof_area_m2 := w_roof_area_m2 w;
  base_CN := w_base_CN w;
  slope_factor := slope_factor_of (w_slope_note w);
  harv_on := w_harv_on w;
  storage_per_unit_L := if w_harv_on w then w_storage_per_unit_L w else 0.0;
  n_units := if w_harv_on w then w_n_units w else 0;
  first_flush_mm := if w_harv_on w then w_first_flush_mm w else 0;
  vetiver_on := w_vetiver_on w;
  vetiver_CN_delta := if w_vetiver_on w then w_vetiver_CN_delta w else 0;
  vetiver_infiltration_boost :=
    if w_vetiver_on w then w_vetiver_infiltration_pct w / 100.0 else 0.0;
  hug_on := w_hug_on w;
  n_beds := if w_hug_on w then w_n_beds w else 0;
  bed_length_m := if w_hug_on w then w_bed_length_m w else 0.0;
  bed_width_m := if w_hug_on w then w_bed_width_m w else 0.0;
  bed_core_depth_m := if w_hug_on w then w_bed_core_depth_m w else 0.0;
  core_porosity := if w_hug_on w then w_core_porosity w else 0.0;
  border_loss_factor := if w_hug_on w then w_border_loss_factor w else 0.0;
  hug_intercept_share :=
    if w_hug_on w then w_hug_intercept_pct w / 100.0 else 0.0;
  pp_on := w_pp_on w;
  pp_CN_delta := if w_pp_on w then w_pp_CN_delta w else 0;
  pp_infiltration_share :=
    if w_pp_on w then w_pp_infiltration_pct w / 100.0 else 0.0;
  pp_fraction_of_catch := if w_pp_on w then w_pp_fraction_of_catch w else 0.0
|}.

(** Lines 105-117. *)
Definition scs_runoff_depth_mm (P CN : float) : result float :=
  quot <-- fdiv 25400.0 CN ;;
  let S := quot - 254.0 in
  let Ia := 0.2 * S in
  if P <=? Ia then Ok 0.0
  else
    num <-- fsquare (P - Ia) ;;
    fdiv num (P + 0.8 * S).

Definition liters (m3 : float) : float := m3 * 1000.0.

Definition m3_from_mm_over_area (mm area_m2 : float) : float :=
  (mm / 1000.0) * area_m2.

Section Engine.

Variable s : Settings.

(** Lines 122-129. *)
Definition CN_after_vetiver : float :=
  let CN_effective := base_CN s in
  if vetiver_on s
  then pymax 30 (CN_effective - vetiver_CN_delta s)
  else CN_effective.

Definition CN_after_pp : float :=
  let CN_effective := CN_after_vetiver in
  if pp_on s
  then (1 - pp_fraction_of_catch s) * CN_effective
       + pp_fraction_of_catch s * pymax 30 (CN_effective - pp_CN_delta s)
  else CN_effective.

Definition CN_effective : float := CN_after_pp * slope_factor s.

Definition Q_mm : result float :=
  scs_runoff_depth_mm (P_mm s) CN_effective.

(** Lines 137-141. *)
Definition harvest_P_effective_mm : float :=
  if harv_on s then pymax 0.0 (P_mm s - first_flush_mm s) else 0.0.

Definition roof_yield_m3 : float :=
  m3_from_mm_over_area harvest_P_effective_mm (roof_area_m2 s).

Definition total_rooftop_storage_m3 : float :=
  liters (storage_per_unit_L s * n_units s) / 1000.0.

Definition captured_roof_m3 : float :=
  if harv_on s then pymin roof_yield_m3 total_rooftop_storage_m3 else 0.0.

Definition roof_overflow_m3 : float :=
  pymax 0.0 (roof_yield_m3 - captured_roof_m3).

(** Lines 146-147. *)
Definition hugel_core_vol_m3 : float :=
  n_beds s * bed_length_m s * bed_width_m s * bed_core_depth_m s.

Definition hugel_storage_m3 : float :=
  hugel_core_vol_m3 * core_porosity s * (1.0 - border_loss_factor s).

(** Lines 156-157. *)
Definition pp_incident_rain_m3 : float :=
  if pp_on s
  then m3_from_mm_over_area (P_mm s)
         (catchment_area_m2 s * pp_fraction_of_catch s)
  else 0.0.

Definition pp_direct_infiltration_m3 : float :=
  if pp_on s then pp_incident_rain_m3 * pp_infiltration_share s else 0.0.

Section AfterBaseline.

Variable baseline : float.

(** Lines 149-150. *)
Definition hugel_intercepted_m3 : float :=
  if hug_on s
  then pymin (baseline * hug_intercept_share s) hugel_storage_m3
  else 0.0.

Definition hugel_overflow_m3 : float :=
  pymax 0.0
    (baseline * hug_intercept_share s - hugel_intercepted_m3).

(** Lines 163-164. *)
Definition remaining_runoff_after_hugel : float :=
  pymax 0.0 (baseline - hugel_intercepted_m3).

Definition vetiver_extra_infiltration_m3 : float :=
  if vetiver_on s
  then remaining_runoff_after_hugel * vetiver_infiltration_boost s
  else 0.0.

(** Lines 178-186. *)
Definition effective_runoff_m3 : float :=
  let effective_runoff_m3 :=
    pymax 0.0 (baseline - hugel_intercepted_m3
               - vetiver_extra_infiltration_m3)
    + hugel_overflow_m3 in
  let effective_runoff_m3 :=
    pymax 0.0 (effective_runoff_m3 - pp_direct_infiltration_m3) in
  effective_runoff_m3 + roof_overflow_m3.

(** Line 196. *)
Definition reduction_ratio : result float :=
  q <-- fdiv effective_runoff_m3 (baseline + 1e-9) ;;
  Ok (1.0 - q).

(** Lines 197-202. *)
Definition score : result float :=
  ratio <-- reduction_ratio ;;
  q <-- fdiv hugel_intercepted_m3 (hugel_storage_m3 + 1e-9) ;;
  let score :=
    40 * pymax 0.0 ratio
    + 20 * (if vetiver_on s then 1.0 else 0.0)
    + 20 * pp_fraction_of_catch s
    + 20 * pymin 1.0 (of_bool (hug_on s) * q) in
  Ok (np_clip score 0 100).

End AfterBaseline.

End Engine.

Record Balance : Type := {
  r_CN_effective : float;
  r_baseline_runoff_m3 : float;
  r_roof_yield_m3 : float;
  r_captured_roof_m3 : float;
  r_roof_overflow_m3 : float;
  r_hugel_storage_m3 : float;
  r_hugel_intercepted_m3 : float;
  r_hugel_overflow_m3 : float;
  r_pp_direct_infiltration_m3 : float;
  r_vetiver_extra_infiltration_m3 : float;
  r_effective_runoff_m3 : float;
  r_reduction_ratio : float;
  r_score : float
}.

(** Line 132. *)
Definition baseline_runoff_m3 (s : Settings) : result float :=
  q <-- Q_mm s ;;
  Ok (m3_from_mm_over_area q (catchment_area_m2 s)).

(** Lines 122-202 in the order of the script. *)
Definition evaluate (s : Settings) : result Balance :=
  b <-- baseline_runoff_m3 s ;;
  ratio <-- reduction_ratio s b ;;
  sc <-- score s b ;;
  Ok {|
    r_CN_effective := CN_effective s;
    r_baseline_runoff_m3 := b;
    r_roof_yield_m3 := roof_yield_m3 s;
    r_captured_roof_m3 := captured_roof_m3 s;
    r_roof_overflow_m3 := roof_overflow_m3 s;
    r_hugel_storage_m3 := hugel_storage_m3 s;
    r_hugel_intercepted_m3 := hugel_intercepted_m3 s b;
    r_hugel_overflow_m3 := hugel_overflow_m3 s b;
    r_pp_direct_infiltration_m3 := pp_direct_infiltration_m3 s;
    r_vetiver_extra_infiltration_m3 := vetiver_extra_infiltration_m3 s b;
    r_effective_runoff_m3 := effective_runoff_m3 s b;
    r_reduction_ratio := ratio;
    r_score := sc
  |}.

Definition run (w : Widgets) : result Balance := evaluate (sidebar w).

(** The ranges of the data model, as a test on doubles. *)
Definition validb (w : Widgets) : bool :=
  (0 <? w_P_mm w) && (0 <? w_catchment_area_m2 w)
  && (0 <=? w_roof_area_m2 w)
  && (30 <=? w_base_CN w) && (w_base_CN w <? 100)
  && (0 <=? w_storage_per_unit_L w) && (0 <=? w_n_units w)
  && (0 <=? w_first_flush_mm w)
  && (0 <=? w_vetiver_CN_delta w)
  && (0 <=? w_vetiver_infiltration_pct w)
  && (w_vetiver_infiltration_pct w <=? 100)
  && (0 <=? w_n_beds w)
  && (0 <? w_bed_length_m w) && (0 <? w_bed_width_m w)
  && (0 <? w_bed_core_depth_m w)
  && (0 <? w_core_porosity w) && (w_core_porosity w <=? 1)
  && (0 <=? w_border_loss_factor w) && (w_border_loss_factor w <? 1)
  && (0 <=? w_hug_intercept_pct w) && (w_hug_intercept_pct w <=? 100)
  && (0 <=? w_pp_CN_delta w)
  && (0 <=? w_pp_infiltration_pct w) && (w_pp_infiltration_pct w <=? 100)
  && (0 <=? w_pp_fraction_of_catch w) && (w_pp_fraction_of_catch w <=? 1).

(** The widgets as the app starts: storm 80 mm, catchment 3000 m2, base
    curve number 85, moderate slope; harvesting, hedgerows and beds on,
    pavement off. *)
Definition app_defaults : Widgets := {|
  w_P_mm := 80;
  w_catchment_area_m2 := 3000.0;
  w_roof_area_m2 := 400.0;
  w_base_CN := 85;
  w_slope_note := Moderate;
  w_harv_on := true;
  w_storage_per_unit_L := 1000.0;
  w_n_units := 10;
  w_first_flush_mm := 2;
  w_vetiver_on := true;
  w_vetiver_CN_delta := 4;
  w_vetiver_infiltration_pct := 10;
  w_hug_on := true;
  w_n_beds := 20;
  w_bed_length_m := 6.0;
  w_bed_width_m := 1.2;
  w_bed_core_depth_m := 0.6;
  w_core_porosity := 0.50;
  w_border_loss_factor := 0.15;
  w_hug_intercept_pct := 30;
  w_pp_on := false;
  w_pp_CN_delta := 8;
  w_pp_infiltration_pct := 40;
  w_pp_fraction_of_catch := 0.25
|}.

(** The defaults with a storm of 155 mm, a base curve number of 93 and
    80 % of the road runoff directed at the beds. *)
Definition beds_saturated : Widgets := {|
  w_P_mm := 155;
  w_catchment_area_m2 := 3000.0;
  w_roof_area_m2 := 400.0;
  w_base_CN := 93;
  w_slope_note := Moderate;
  w_harv_on := true;
  w_storage_per_unit_L := 1000.0;
  w_n_units := 10;
  w_first_flush_mm := 2;
  w_vetiver_on := true;
  w_vetiver_CN_delta := 4;
  w_vetiver_infiltration_pct := 10;
  w_hug_on := true;
  w_n_beds := 20;
  w_bed_length_m := 6.0;
  w_bed_width_m := 1.2;
  w_bed_core_depth_m := 0.6;
  w_core_porosity := 0.50;
  w_border_loss_factor := 0.15;
  w_hug_intercept_pct := 80;
  w_pp_on := false;
  w_pp_CN_delta := 8;
  w_pp_infiltration_pct := 40;
  w_pp_fraction_of_catch := 0.25
|}.

(** A base curve number of 74 and only the permeable pavement on, with a
    curve-number reduction of 0 on a tenth of the catchment. *)
Definition pavement_without_reduction : Widgets := {|
  w_P_mm := 80;
  w_catchment_area_m2 := 3000.0;
  w_roof_area_m2 := 400.0;
  w_base_CN := 74;
  w_slope_note := Moderate;
  w_harv_on := false;
  w_storage_per_unit_L := 1000.0;
  w_n_units := 10;
  w_first_flush_mm := 2;
  w_vetiver_on := false;
  w_vetiver_CN_delta := 4;
  w_vetiver_infiltration_pct := 10;
  w_hug_on := false;
  w_n_beds := 20;
  w_bed_length_m := 6.0;
  w_bed_width_m := 1.2;
  w_bed_core_depth_m := 0.6;
  w_core_porosity := 0.50;
  w_border_loss_factor := 0.15;
  w_hug_intercept_pct := 30;
  w_pp_on := true;
  w_pp_CN_delta := 0;
  w_pp_infiltration_pct := 40;
  w_pp_fraction_of_catch := 0.1
|}.

(** A steep site with a base curve number of 99 under a storm of
    7.72140452140452 mm; every measure off. *)
Definition steep_light_storm : Widgets := {|
  w_P_mm := 7.72140452140452;
  w_catchment_area_m2 := 3000.0;
  w_roof_area_m2 := 400.0;
  w_base_CN := 99;
  w_slope_note := Steep;
  w_harv_on := false;
  w_storage_per_unit_L := 1000.0;
  w_n_units := 10;
  w_first_flush_mm := 2;
  w_vetiver_on := false;
  w_vetiver_CN_delta := 4;
  w_vetiver_infiltration_pct := 10;
  w_hug_on := false;
  w_n_beds := 20;
  w_bed_length_m := 6.0;
  w_bed_width_m := 1.2;
  w_bed_core_depth_m := 0.6;
  w_core_porosity := 0.50;
  w_border_loss_factor := 0.15;
  w_hug_intercept_pct := 30;
  w_pp_on := false;
  w_pp_CN_delta := 8;
  w_pp_infiltration_pct := 40;
  w_pp_fraction_of_catch := 0.25
|}.

(** The defaults, every measure off, under a storm of 1e200 mm. *)
Definition immense_storm : Widgets := {|
  w_P_mm := 1e200;
  w_catchment_area_m2 := 3000.0;
  w_roof_area_m2 := 400.0;
  w_base_CN := 85;
  w_slope_note := Moderate;
  w_harv_on := false;
  w_storage_per_unit_L := 1000.0;
  w_n_units := 10;
  w_first_flush_mm := 2;
  w_vetiver_on := false;
  w_vetiver_CN_delta := 4;
  w_vetiver_infiltration_pct := 10;
  w_hug_on := false;
  w_n_beds := 20;
  w_bed_length_m := 6.0;
  w_bed_width_m := 1.2;
  w_bed_core_depth_m := 0.6;
  w_core_porosity := 0.50;
  w_border_loss_factor := 0.15;
  w_hug_intercept_pct := 30;
  w_pp_on := false;
  w_pp_CN_delta := 8;
  w_pp_infiltration_pct := 40;
  w_pp_fraction_of_catch := 0.25
|}.

(** Two neighbouring storm depths and a curve number between 0 and 100. *)
Definition storm_below : float := 62.596976004648575.
Definition storm_above : float := 62.59697600464858.
Definition curve_number_between : float := 74.73775924145829.

End Double.
(** ** Proof steps used throughout *)

(** Case analysis on every [Qmax] and [Qmin] in sight, leaving linear
    facts about fresh names. *)
Ltac minmax_cases :=
  repeat match goal with
  | |- context [Qmax ?a ?b] =>
      let m := fresh "m" in
      let H := fresh "Hm" in
      pose proof (Q.max_spec a b) as H;
      set (m := Qmax a b) in *; clearbody m
  | |- context [Qmin ?a ?b] =>
      let m := fresh "m" in
      let H := fresh "Hm" in
      pose proof (Q.min_spec a b) as H;
      set (m := Qmin a b) in *; clearbody m
  | H : context [Qmax ?a ?b] |- _ =>
      let m := fresh "m" in
      let H' := fresh "Hm" in
      pose proof (Q.max_spec a b) as H';
      set (m := Qmax a b) in *; clearbody m
  | H : context [Qmin ?a ?b] |- _ =>
      let m := fresh "m" in
      let H' := fresh "Hm" in
      pose proof (Q.min_spec a b) as H';
      set (m := Qmin a b) in *; clearbody m
  end.

(** Reduce the fields of [sidebar w]. *)
Ltac sidebar_fields :=
  cbn [sidebar P_mm catchment_area_m2 roof_area_m2 base_CN slope_factor
       harv_on storage_per_unit_L n_units first_flush_mm
       vetiver_on vetiver_CN_delta vetiver_infiltration_boost
       hug_on n_beds bed_length_m bed_width_m bed_core_depth_m
       core_porosity border_loss_factor hug_intercept_share
       pp_on pp_CN_delta pp_infiltration_share pp_fraction_of_catch] in *.

(** Goals about the guard [1e-9] of lines 196 and 200: it is positive. *)
Ltac guard_positive :=
  let H := fresh "Hguard" in
  assert (H : 0 < 1e-9) by reflexivity;
  set (guard := 1e-9) in *; clearbody guard; lra.



(** ** Basic facts *)

Lemma Qlt_bool_iff (x y : Q) : Qlt_bool x y = true <-> x < y.
Proof.
  unfold Qlt_bool. rewrite negb_true_iff.
  split; intro H.
  - apply Qnot_le_lt. intro Hle. apply Qle_bool_iff in Hle. congruence.
  - destruct (Qle_bool y x) eqn:E; [|reflexivity].
    apply Qle_bool_iff in E. exfalso. apply (Qlt_not_le _ _ H E).
Qed.

Lemma validb_sound (w : Widgets) : validb w = true -> valid w.
Proof.
  unfold validb. intro H.
  repeat (apply andb_true_iff in H; destruct H as [H ?]).
  repeat match goal with
  | H : Qle_bool _ _ = true |- _ => apply Qle_bool_iff in H
  | H : Qlt_bool _ _ = true |- _ => apply Qlt_bool_iff in H
  | H : (_ <=? _)%Z = true |- _ => apply Z.leb_le in H
  end.
  constructor; assumption.
Qed.

Lemma fdiv_some (x y : Q) : ~ y == 0 -> fdiv x y = Some (x / y).
Proof.
  intro H. unfold fdiv.
  destruct (Qeq_bool y 0) eqn:E; [|reflexivity].
  apply Qeq_bool_iff in E. contradiction.
Qed.

Lemma Qsquare (x : Q) : x ^ 2 = x * x.
Proof. reflexivity. Qed.

Lemma Qdiv_nonneg (x y : Q) : 0 <= x -> 0 < y -> 0 <= x / y.
Proof.
  intros Hx Hy. apply Qle_shift_div_l; [assumption|]. lra.
Qed.

Lemma Qdiv_le_cross (a b c d : Q) :
  0 < b -> 0 < d -> a * d <= c * b -> a / b <= c / d.
Proof.
  intros Hb Hd H.
  apply Qle_shift_div_l; [assumption|].
  assert (E : a / b * d == a * d / b) by (field; lra).
  rewrite E. apply Qle_shift_div_r; assumption.
Qed.

Lemma inject_Z_nonneg (n : Z) : (0 <= n)%Z -> 0 <= inject_Z n.
Proof. intro H. unfold Qle; simpl. lia. Qed.


(** ** The runoff-depth calculator *)

(** With a curve number other than zero the first division goes through
    and the function is the two-branch formula in [S] and [Ia]. *)
Lemma scs_runoff_depth_unfold (P CN : Q) :
  ~ CN == 0 ->
  scs_runoff_depth_mm P CN =
    let S := retention_S (25400.0 / CN) in
    let Ia := abstraction_Ia S in
    if Qle_bool P Ia then Some 0.0 else fdiv ((P - Ia) ^ 2) (P + 0.8 * S).
Proof.
  intro H. unfold scs_runoff_depth_mm.
  rewrite (fdiv_some _ _ H). reflexivity.
Qed.

Lemma retention_S_nonneg (CN : Q) :
  0 < CN -> CN <= 100 -> 0 <= retention_S (25400.0 / CN).
Proof.
  intros H0 H1. unfold retention_S.
  assert (254.0 <= 25400.0 / CN) by (apply Qle_shift_div_l; lra).
  lra.
Qed.

Lemma retention_S_antitone (CN1 CN2 : Q) :
  0 < CN1 -> CN1 <= CN2 ->
  retention_S (25400.0 / CN2) <= retention_S (25400.0 / CN1).
Proof.
  intros H0 H1. unfold retention_S.
  assert (25400.0 / CN2 <= 25400.0 / CN1) by (apply Qdiv_le_cross; lra).
  lra.
Qed.

(** The quotient of the second branch, as a function of [P] and [S]. *)
Lemma depth_quotient_nonneg (P S : Q) :
  0 <= S -> 0.2 * S < P -> 0 <= (P - 0.2 * S) ^ 2 / (P + 0.8 * S).
Proof.
  intros HS HP. rewrite Qsquare.
  apply Qdiv_nonneg; [|lra].
  apply Qmult_le_0_compat; lra.
Qed.

Lemma depth_quotient_antitone_S (P S1 S2 : Q) :
  0 <= S2 -> S2 <= S1 -> 0.2 * S1 < P ->
  (P - 0.2 * S1) ^ 2 / (P + 0.8 * S1) <= (P - 0.2 * S2) ^ 2 / (P + 0.8 * S2).
Proof.
  intros H2 H12 HP. rewrite !Qsquare.
  apply Qdiv_le_cross; [lra | lra |].
  set (u := P - 0.2 * S1). set (v := P - 0.2 * S2).
  assert (Hu : 0 < u) by (unfold u; lra).
  assert (Huv : u <= v) by (unfold u, v; lra).
  assert (Hsq : u * u <= v * v) by nra.
  assert (Hd : 0 <= u * u) by nra.
  apply Qle_trans with (v * v * (P + 0.8 * S2)).
  - apply Qmult_le_compat_r; [assumption | lra].
  - assert (0 <= v * v * ((P + 0.8 * S1) - (P + 0.8 * S2))).
    { apply Qmult_le_0_compat; [nra | lra]. }
    lra.
Qed.

Lemma depth_quotient_monotone_P (P1 P2 S : Q) :
  0 <= S -> 0.2 * S < P1 -> P1 <= P2 ->
  (P1 - 0.2 * S) ^ 2 / (P1 + 0.8 * S) <= (P2 - 0.2 * S) ^ 2 / (P2 + 0.8 * S).
Proof.
  intros HS H1 H12. rewrite !Qsquare.
  apply Qdiv_le_cross; [lra | lra |].
  set (a := 0.2 * S).
  assert (Ea : 0.8 * S == 4 * a) by (unfold a; lra).
  rewrite !Ea.
  set (u := P1 - a). set (v := P2 - a).
  assert (Hu : 0 < u) by (unfold u, a; lra).
  assert (Huv : u <= v) by (unfold u, v; lra).
  assert (Ha : 0 <= a) by (unfold a; lra).
  assert (E1 : P2 + 4 * a == v + 5 * a) by (unfold v; lra).
  assert (E2 : P1 + 4 * a == u + 5 * a) by (unfold u; lra).
  rewrite E1, E2.
  (* v*v*(u+5a) - u*u*(v+5a) = u*v*(v-u) + 5a*(v-u)*(v+u) *)
  assert (Huvp : 0 <= u * v * (v - u)).
  { apply Qmult_le_0_compat; [nra | lra]. }
  assert (Hav : 0 <= 5 * a * ((v - u) * (v + u))).
  { apply Qmult_le_0_compat; [lra |]. apply Qmult_le_0_compat; lra. }
  assert (E : v * v * (u + 5 * a) - u * u * (v + 5 * a)
              == u * v * (v - u) + 5 * a * ((v - u) * (v + u))) by ring.
  lra.
Qed.

(** What the calculator returns on a curve number in (0,100]. *)
Lemma scs_runoff_depth_cases (P CN : Q) :
  0 < CN -> CN <= 100 ->
  let S := retention_S (25400.0 / CN) in
  (P <= 0.2 * S /\ scs_runoff_depth_mm P CN = Some 0.0)
  \/ (0.2 * S < P /\
      scs_runoff_depth_mm P CN
      = Some ((P - 0.2 * S) ^ 2 / (P + 0.8 * S))).
Proof.
  intros H0 H1 S.
  assert (HS : 0 <= S) by (apply retention_S_nonneg; assumption).
  rewrite scs_runoff_depth_unfold by lra.
  fold S. unfold abstraction_Ia. cbv zeta.
  destruct (Qle_bool P (0.2 * S)) eqn:E.
  - left. apply Qle_bool_iff in E. split; [assumption | reflexivity].
  - right.
    assert (HP : 0.2 * S < P).
    { apply Qnot_le_lt. intro Hle. apply Qle_bool_iff in Hle. congruence. }
    split; [assumption|].
    apply fdiv_some. lra.
Qed.

Lemma scs_depth_returns_nonneg (P CN : Q) :
  0 < CN -> CN <= 100 -> 0 <= P ->
  exists q, scs_runoff_depth_mm P CN = Some q /\ 0 <= q.
Proof.
  intros H0 H1 HP.
  pose proof (retention_S_nonneg CN H0 H1) as HS.
  destruct (scs_runoff_depth_cases P CN H0 H1) as [[Hle ->] | [Hlt ->]];
    eexists; (split; [reflexivity|]).
  - lra.
  - apply depth_quotient_nonneg; assumption.
Qed.

Lemma fdiv_some_inv (x y q : Q) : fdiv x y = Some q -> q = x / y.
Proof.
  unfold fdiv. destruct (Qeq_bool y 0); [discriminate|].
  intro H. now injection H as <-.
Qed.

(** For every curve number other than 0 the calculator takes one of its
    two branches on the comparison of P with Ia. *)
Lemma scs_runoff_depth_branches (P CN : Q) :
  ~ CN == 0 ->
  let S := retention_S (25400.0 / CN) in
  (P <= 0.2 * S /\ scs_runoff_depth_mm P CN = Some 0.0)
  \/ (0.2 * S < P
      /\ scs_runoff_depth_mm P CN
         = fdiv ((P - 0.2 * S) ^ 2) (P + 0.8 * S)).
Proof.
  intros H S. rewrite scs_runoff_depth_unfold by assumption.
  fold S. unfold abstraction_Ia. cbv zeta.
  destruct (Qle_bool P (0.2 * S)) eqn:E.
  - left. apply Qle_bool_iff in E. split; [assumption | reflexivity].
  - right. split; [|reflexivity].
    apply Qnot_le_lt. intro Hle. apply Qle_bool_iff in Hle. congruence.
Qed.

(** C4: for every curve number other than 0 the runoff-depth calculator
    takes S = 25400/CN - 254 and Ia = 0.2 S, returns Q = 0 when P <= Ia,
    and what it returns otherwise is Q = (P - Ia)^2 / (P + 0.8 S); it does
    return there when CN > 0, the denominator is at least 1 and P - Ia is
    at most 1e154 (so that the square is in the range of a double).
    Consequently, for CN in (0,100] and P >= 0 every depth returned is
    non-negative, and one is returned for every P up to 1e154. *)
Theorem scs_runoff_depth_formula_nonneg (P CN : Q) :
  ~ CN == 0 ->
  (P <= 0.2 * (25400 / CN - 254) -> scs_runoff_depth_mm P CN = Some 0.0)
  /\ (0.2 * (25400 / CN - 254) < P ->
      forall q, scs_runoff_depth_mm P CN = Some q ->
      q == (P - 0.2 * (25400 / CN - 254)) ^ 2
           / (P + 0.8 * (25400 / CN - 254)))
  /\ (0 < CN -> 0.2 * (25400 / CN - 254) < P ->
      1 <= P + 0.8 * (25400 / CN - 254) ->
      P - 0.2 * (25400 / CN - 254) <= 1e154 ->
      exists q, scs_runoff_depth_mm P CN = Some q)
  /\ (0 < CN -> CN <= 100 -> 0 <= P ->
      (forall q, scs_runoff_depth_mm P CN = Some q -> 0 <= q)
      /\ (P <= 1e154 -> exists q, scs_runoff_depth_mm P CN = Some q)).
Proof.
  intro HCN.
  assert (ES : retention_S (25400.0 / CN) == 25400 / CN - 254)
    by (unfold retention_S; field; assumption).
  pose proof (scs_runoff_depth_branches P CN HCN) as Hbr.
  cbv zeta in Hbr.
  split; [|split; [|split]].
  - intro Hle. destruct Hbr as [[_ E] | [Hlt _]]; [exact E | lra].
  - intros Hlt q Hq. destruct Hbr as [[Hle _] | [_ E]]; [lra|].
    rewrite E in Hq. apply fdiv_some_inv in Hq. subst q.
    rewrite <- ES. reflexivity.
  - intros _ Hlt Hden _. destruct Hbr as [[Hle _] | [_ E]]; [lra|].
    rewrite E, fdiv_some by lra. eexists. reflexivity.
  - intros H0 H1 HP.
    destruct (scs_depth_returns_nonneg P CN H0 H1 HP) as (q & Hq & Hq0).
    split.
    + intros q' Hq'. rewrite Hq in Hq'. now injection Hq' as <-.
    + intros _. exists q. exact Hq.
Qed.

Lemma scs_runoff_depth_formula_nonneg_witness :
  (80 <= 0.2 * (25400 / 85 - 254) -> scs_runoff_depth_mm 80 85 = Some 0.0)
  /\ (0.2 * (25400 / 85 - 254) < 80 ->
      forall q, scs_runoff_depth_mm 80 85 = Some q ->
      q == (80 - 0.2 * (25400 / 85 - 254)) ^ 2
           / (80 + 0.8 * (25400 / 85 - 254)))
  /\ (0 < 85 -> 0.2 * (25400 / 85 - 254) < 80 ->
      1 <= 80 + 0.8 * (25400 / 85 - 254) ->
      80 - 0.2 * (25400 / 85 - 254) <= 1e154 ->
      exists q, scs_runoff_depth_mm 80 85 = Some q)
  /\ (0 < 85 -> 85 <= 100 -> 0 <= 80 ->
      (forall q, scs_runoff_depth_mm 80 85 = Some q -> 0 <= q)
      /\ (80 <= 1e154 -> exists q, scs_runoff_depth_mm 80 85 = Some q)).
Proof.
  apply (scs_runoff_depth_formula_nonneg 80 85).
  vm_compute. discriminate.
Defined.


(** In exact arithmetic the depth does not fall when the curve number or
    the storm depth rises. *)
Lemma scs_depth_le_in_CN (P CN1 CN2 : Q) :
  0 < CN1 -> CN1 <= CN2 -> CN2 <= 100 ->
  depth_le (scs_runoff_depth_mm P CN1) (scs_runoff_depth_mm P CN2).
Proof.
  intros H1 H12 H2.
  assert (H1' : CN1 <= 100) by lra.
  assert (H2' : 0 < CN2) by lra.
  pose proof (retention_S_nonneg CN2 H2' H2) as HS2.
  pose proof (retention_S_antitone CN1 CN2 H1 H12) as HS.
  destruct (scs_runoff_depth_cases P CN1 H1 H1') as [[Ha ->] | [Ha ->]];
    destruct (scs_runoff_depth_cases P CN2 H2' H2) as [[Hb ->] | [Hb ->]];
    unfold depth_le.
  - lra.
  - pose proof (depth_quotient_nonneg _ _ HS2 Hb). lra.
  - lra.
  - apply depth_quotient_antitone_S; assumption.
Qed.

Lemma scs_depth_le_in_P (P1 P2 CN : Q) :
  0 < CN -> CN <= 100 -> P1 <= P2 ->
  depth_le (scs_runoff_depth_mm P1 CN) (scs_runoff_depth_mm P2 CN).
Proof.
  intros H0 H1 H12.
  pose proof (retention_S_nonneg CN H0 H1) as HS.
  destruct (scs_runoff_depth_cases P1 CN H0 H1) as [[Ha ->] | [Ha ->]];
    destruct (scs_runoff_depth_cases P2 CN H0 H1) as [[Hb ->] | [Hb ->]];
    unfold depth_le.
  - lra.
  - pose proof (depth_quotient_nonneg _ _ HS Hb). lra.
  - lra.
  - apply depth_quotient_monotone_P; assumption.
Qed.

Lemma depth_le_within_rounding_of_le (a b : option Q) :
  depth_le a b -> depth_le (Some 0) b -> depth_le_within_rounding a b.
Proof.
  unfold depth_le, depth_le_within_rounding.
  destruct a as [x|], b as [y|]; try tauto.
  intros Hxy Hy.
  assert (Ht : 0 < 1e-9) by reflexivity.
  set (t := 1e-9) in *. clearbody t.
  assert (0 <= y * t) by (apply Qmult_le_0_compat; lra).
  assert (E : y * (1 + t) == y + y * t) by ring.
  lra.
Qed.

(** C6 as stated fails in the doubles of the script: at a curve number of
    74.73775924145829 the depth for a storm of 62.596976004648575 mm is
    15.718345786643717 and the depth for the next larger storm,
    62.59697600464858 mm, is 15.718345786643713. *)
Lemma double_depth_falls_as_storm_grows :
  PrimFloat.ltb 0 Double.curve_number_between = true
  /\ PrimFloat.leb Double.curve_number_between 100 = true
  /\ PrimFloat.ltb Double.storm_below Double.storm_above = true
  /\ exists q1 q2,
       Double.scs_runoff_depth_mm Double.storm_below
         Double.curve_number_between = Double.Ok q1
       /\ Double.scs_runoff_depth_mm Double.storm_above
            Double.curve_number_between = Double.Ok q2
       /\ PrimFloat.ltb q2 q1 = true.
Proof.
  split; [vm_compute; reflexivity|].
  split; [vm_compute; reflexivity|].
  split; [vm_compute; reflexivity|].
  do 2 eexists.
  split; [vm_compute; reflexivity|].
  split; vm_compute; reflexivity.
Qed.

(** C6, amended: for every storm depth P in [0, 1e154] and curve numbers
    CN1 <= CN2 in (0,100] the runoff depth satisfies
    Q(P, CN1) <= Q(P, CN2).  For every CN in (0,100] and depths
    P1 <= P2 <= 1e154, Q(P1, CN) <= Q(P2, CN) when P1 is at most the
    initial abstraction (Q(P1, CN) is then 0), and for P1 >= 1e-100
    Q(P1, CN) <= Q(P2, CN) (1 + 1e-9): in the storm depth the order holds
    up to rounding.  In each case both calls return. *)
Theorem scs_runoff_depth_monotone_up_to_rounding :
  (forall P CN1 CN2 : Q,
     0 <= P -> P <= 1e154 -> 0 < CN1 -> CN1 <= CN2 -> CN2 <= 100 ->
     depth_le (scs_runoff_depth_mm P CN1) (scs_runoff_depth_mm P CN2))
  /\ (forall P1 P2 CN : Q,
        0 < CN -> CN <= 100 -> P1 <= P2 -> P2 <= 1e154 ->
        (P1 <= 0.2 * retention_S (25400.0 / CN) ->
         scs_runoff_depth_mm P1 CN = Some 0.0
         /\ depth_le (scs_runoff_depth_mm P1 CN) (scs_runoff_depth_mm P2 CN))
        /\ (1e-100 <= P1 ->
            depth_le_within_rounding
              (scs_runoff_depth_mm P1 CN) (scs_runoff_depth_mm P2 CN))).
Proof.
  split.
  - intros P CN1 CN2 _ _ H1 H12 H2. now apply scs_depth_le_in_CN.
  - intros P1 P2 CN H0 H1 H12 _.
    pose proof (scs_depth_le_in_P P1 P2 CN H0 H1 H12) as Hle.
    split.
    + intro Ha. split; [|exact Hle].
      destruct (scs_runoff_depth_cases P1 CN H0 H1) as [[_ E] | [Hlt _]];
        [exact E | lra].
    + intros _. apply depth_le_within_rounding_of_le; [exact Hle|].
      pose proof (retention_S_nonneg CN H0 H1) as HS.
      destruct (scs_runoff_depth_cases P2 CN H0 H1) as [[_ ->] | [Hb ->]];
        unfold depth_le; [lra|].
      exact (depth_quotient_nonneg _ _ HS Hb).
Qed.

Lemma scs_runoff_depth_monotone_up_to_rounding_witness :
  depth_le (scs_runoff_depth_mm 80 81) (scs_runoff_depth_mm 80 85)
  /\ (scs_runoff_depth_mm 5 85 = Some 0.0
      /\ depth_le (scs_runoff_depth_mm 5 85) (scs_runoff_depth_mm 80 85))
  /\ depth_le_within_rounding
       (scs_runoff_depth_mm 20 85) (scs_runoff_depth_mm 80 85).
Proof.
  split; [|split].
  - apply (proj1 scs_runoff_depth_monotone_up_to_rounding 80 81 85);
      vm_compute; first [reflexivity | discriminate].
  - refine (proj1 (proj2 scs_runoff_depth_monotone_up_to_rounding
                     5 80 85 _ _ _ _) _);
      vm_compute; first [reflexivity | discriminate].
  - refine (proj2 (proj2 scs_runoff_depth_monotone_up_to_rounding
                     20 80 85 _ _ _ _) _);
      vm_compute; first [reflexivity | discriminate].
Defined.

(** ** The curve-number resolver *)

Lemma CN_after_vetiver_bounds (s : Settings) :
  30 <= base_CN s -> 0 <= vetiver_CN_delta s ->
  30 <= CN_after_vetiver s /\ CN_after_vetiver s <= base_CN s.
Proof.
  intros H30 Hd. unfold CN_after_vetiver. cbv zeta.
  destruct (vetiver_on s); [|lra].
  minmax_cases. lra.
Qed.

Lemma CN_after_pp_bounds (s : Settings) :
  30 <= base_CN s -> 0 <= vetiver_CN_delta s -> 0 <= pp_CN_delta s ->
  0 <= pp_fraction_of_catch s -> pp_fraction_of_catch s <= 1 ->
  30 <= CN_after_pp s /\ CN_after_pp s <= base_CN s.
Proof.
  intros H30 Hd Hp Hf0 Hf1.
  destruct (CN_after_vetiver_bounds s H30 Hd) as [Hlo Hhi].
  unfold CN_after_pp. cbv zeta.
  destruct (pp_on s); [|lra].
  set (c := CN_after_vetiver s) in *.
  set (f := pp_fraction_of_catch s) in *.
  minmax_cases.
  assert (Hmc : 30 <= m /\ m <= c) by lra.
  assert (E : (1 - f) * c + f * m == c - f * (c - m)) by ring.
  assert (E' : (1 - f) * c + f * m == m + (1 - f) * (c - m)) by ring.
  assert (0 <= f * (c - m)) by (apply Qmult_le_0_compat; lra).
  assert (0 <= (1 - f) * (c - m)) by (apply Qmult_le_0_compat; lra).
  lra.
Qed.

Lemma slope_factor_of_bounds (n : slope_note) :
  0.95 <= slope_factor_of n /\ slope_factor_of n <= 1.05.
Proof. destruct n; simpl; lra. Qed.

Lemma CN_effective_bound (s : Settings) :
  30 <= base_CN s -> 0 <= vetiver_CN_delta s -> 0 <= pp_CN_delta s ->
  0 <= pp_fraction_of_catch s -> pp_fraction_of_catch s <= 1 ->
  0 <= slope_factor s ->
  CN_effective s <= base_CN s * slope_factor s.
Proof.
  intros H30 Hd Hp Hf0 Hf1 Hs.
  destruct (CN_after_pp_bounds s H30 Hd Hp Hf0 Hf1) as [_ Hhi].
  unfold CN_effective. apply Qmult_le_compat_r; assumption.
Qed.

Lemma sidebar_delta_nonneg (w : Widgets) :
  0 <= w_vetiver_CN_delta w -> 0 <= w_pp_CN_delta w ->
  0 <= w_pp_fraction_of_catch w -> w_pp_fraction_of_catch w <= 1 ->
  0 <= vetiver_CN_delta (sidebar w) /\ 0 <= pp_CN_delta (sidebar w)
  /\ 0 <= pp_fraction_of_catch (sidebar w)
  /\ pp_fraction_of_catch (sidebar w) <= 1.
Proof.
  intros. simpl.
  destruct (w_vetiver_on w), (w_pp_on w); repeat split; lra.
Qed.

Lemma CN_sidebar_le_base_slope (w : Widgets) :
  30 <= w_base_CN w ->
  0 <= w_vetiver_CN_delta w -> 0 <= w_pp_CN_delta w ->
  0 <= w_pp_fraction_of_catch w -> w_pp_fraction_of_catch w <= 1 ->
  CN_effective (sidebar w) <= w_base_CN w * slope_factor_of (w_slope_note w).
Proof.
  intros H30 Hd Hp Hf0 Hf1.
  destruct (sidebar_delta_nonneg w Hd Hp Hf0 Hf1) as (A & B & C & D).
  apply (CN_effective_bound (sidebar w)); try assumption.
  simpl. pose proof (slope_factor_of_bounds (w_slope_note w)). lra.
Qed.

(** C10 as stated fails in the doubles of the script: with a base curve
    number of 74, a moderate slope and only the pavement on (reduction 0,
    fraction 0.1) the blend 0.9 x 74 + 0.1 x 74 is 74.00000000000001, above
    base curve number times slope factor, 74.0. *)
Lemma double_pavement_blend_exceeds_base :
  Double.validb Double.pavement_without_reduction = true
  /\ PrimFloat.ltb
       (PrimFloat.mul
          (Double.w_base_CN Double.pavement_without_reduction)
          (Double.slope_factor_of
             (Double.w_slope_note Double.pavement_without_reduction)))
       (Double.CN_effective
          (Double.sidebar Double.pavement_without_reduction))
     = true.
Proof. split; vm_compute; reflexivity. Qed.

(** C10, amended: with a base curve number of at least 30, non-negative
    hedgerow and pavement reductions and a converted fraction in [0,1],
    the curve number after the hedgerow step is at most the base one; with
    the pavement off the effective curve number is at most base curve
    number times slope factor; with the pavement on it is so up to the
    rounding of the area-weighted blend: at most base curve number times
    slope factor times (1 + 1e-9). *)
Theorem CN_effective_le_base_times_slope_up_to_rounding (w : Widgets) :
  30 <= w_base_CN w ->
  0 <= w_vetiver_CN_delta w -> 0 <= w_pp_CN_delta w ->
  0 <= w_pp_fraction_of_catch w -> w_pp_fraction_of_catch w <= 1 ->
  CN_after_vetiver (sidebar w) <= w_base_CN w
  /\ (w_pp_on w = false ->
      CN_effective (sidebar w)
      <= w_base_CN w * slope_factor_of (w_slope_note w))
  /\ CN_effective (sidebar w)
     <= w_base_CN w * slope_factor_of (w_slope_note w) * (1 + 1e-9).
Proof.
  intros H30 Hd Hp Hf0 Hf1.
  pose proof (CN_sidebar_le_base_slope w H30 Hd Hp Hf0 Hf1) as Hle.
  destruct (sidebar_delta_nonneg w Hd Hp Hf0 Hf1) as (A & _).
  destruct (CN_after_vetiver_bounds (sidebar w) H30 A) as [_ Hv].
  split; [exact Hv|]. split; [intros _; exact Hle|].
  pose proof (slope_factor_of_bounds (w_slope_note w)) as [Hs _].
  set (c := CN_effective (sidebar w)) in *.
  set (x := w_base_CN w * slope_factor_of (w_slope_note w)) in *.
  assert (Hx : 0 <= x).
  { unfold x. apply Qmult_le_0_compat; lra. }
  clearbody c x.
  assert (Ht : 0 < 1e-9) by reflexivity.
  set (t := 1e-9) in *. clearbody t.
  assert (0 <= x * t) by (apply Qmult_le_0_compat; lra).
  assert (E : x * (1 + t) == x + x * t) by ring.
  lra.
Qed.

Lemma CN_effective_le_base_times_slope_up_to_rounding_witness :
  CN_after_vetiver (sidebar defaults_all_on) <= w_base_CN defaults_all_on
  /\ (w_pp_on defaults_all_on = false ->
      CN_effective (sidebar defaults_all_on)
      <= w_base_CN defaults_all_on
         * slope_factor_of (w_slope_note defaults_all_on))
  /\ CN_effective (sidebar defaults_all_on)
     <= w_base_CN defaults_all_on
        * slope_factor_of (w_slope_note defaults_all_on) * (1 + 1e-9).
Proof.
  apply (CN_effective_le_base_times_slope_up_to_rounding defaults_all_on);
    vm_compute; discriminate.
Defined.

(** ** Mound beds *)

(** C9 as stated fails in the doubles of the script: with a storm of
    155 mm, a base curve number of 93 and a share of 80 % the beds are full
    (36.72 m3), the overflow is 257.9995434460154 m3, and their sum is not
    the 294.7195434460154 m3 of baseline x share. *)
Lemma double_beds_sum_misses_directed_runoff :
  Double.validb Double.beds_saturated = true
  /\ Double.hug_on (Double.sidebar Double.beds_saturated) = true
  /\ exists r,
       Double.run Double.beds_saturated = Double.Ok r
       /\ PrimFloat.eqb
            (PrimFloat.add (Double.r_hugel_intercepted_m3 r)
               (Double.r_hugel_overflow_m3 r))
            (PrimFloat.mul (Double.r_baseline_runoff_m3 r)
               (Double.hug_intercept_share
                  (Double.sidebar Double.beds_saturated)))
          = false.
Proof.
  split; [vm_compute; reflexivity|].
  split; [vm_compute; reflexivity|].
  eexists. split; vm_compute; reflexivity.
Qed.

(** C9, amended: with mound beds enabled the runoff directed at the beds,
    baseline x share, is split in two: while it fits in the storage it is
    all intercepted and the overflow is 0; beyond the storage the
    intercepted volume is the storage and the overflow is baseline x share
    minus the storage.  With a non-negative storage and directed runoff,
    intercepted plus overflow is baseline x share up to rounding (within a
    relative 1e-9). *)
Theorem hugel_intercepted_plus_overflow_up_to_rounding
        (s : Settings) (baseline : Q) :
  hug_on s = true ->
  (baseline * hug_intercept_share s <= hugel_storage_m3 s ->
   hugel_intercepted_m3 s baseline == baseline * hug_intercept_share s
   /\ hugel_overflow_m3 s baseline == 0)
  /\ (hugel_storage_m3 s < baseline * hug_intercept_share s ->
      hugel_intercepted_m3 s baseline == hugel_storage_m3 s
      /\ hugel_overflow_m3 s baseline
         == baseline * hug_intercept_share s - hugel_storage_m3 s)
  /\ (0 <= hugel_storage_m3 s -> 0 <= baseline * hug_intercept_share s ->
      baseline * hug_intercept_share s * (1 - 1e-9)
      <= hugel_intercepted_m3 s baseline + hugel_overflow_m3 s baseline
      /\ hugel_intercepted_m3 s baseline + hugel_overflow_m3 s baseline
         <= baseline * hug_intercept_share s * (1 + 1e-9)).
Proof.
  intro Hon. unfold hugel_overflow_m3, hugel_intercepted_m3.
  rewrite Hon.
  set (x := baseline * hug_intercept_share s).
  set (c := hugel_storage_m3 s).
  clearbody x c.
  minmax_cases.
  assert (Ht : 0 < 1e-9) by reflexivity.
  set (t := 1e-9) in *. clearbody t.
  split; [|split].
  - intro. split; lra.
  - intro. split; lra.
  - intros Hc Hx.
    assert (0 <= x * t) by (apply Qmult_le_0_compat; lra).
    assert (E1 : x * (1 - t) == x - x * t) by ring.
    assert (E2 : x * (1 + t) == x + x * t) by ring.
    split; lra.
Qed.

Lemma hugel_intercepted_plus_overflow_up_to_rounding_witness :
  (130 * hug_intercept_share (sidebar defaults_all_on)
   <= hugel_storage_m3 (sidebar defaults_all_on) ->
   hugel_intercepted_m3 (sidebar defaults_all_on) 130
   == 130 * hug_intercept_share (sidebar defaults_all_on)
   /\ hugel_overflow_m3 (sidebar defaults_all_on) 130 == 0)
  /\ (hugel_storage_m3 (sidebar defaults_all_on)
      < 130 * hug_intercept_share (sidebar defaults_all_on) ->
      hugel_intercepted_m3 (sidebar defaults_all_on) 130
      == hugel_storage_m3 (sidebar defaults_all_on)
      /\ hugel_overflow_m3 (sidebar defaults_all_on) 130
         == 130 * hug_intercept_share (sidebar defaults_all_on)
            - hugel_storage_m3 (sidebar defaults_all_on))
  /\ (0 <= hugel_storage_m3 (sidebar defaults_all_on) ->
      0 <= 130 * hug_intercept_share (sidebar defaults_all_on) ->
      130 * hug_intercept_share (sidebar defaults_all_on) * (1 - 1e-9)
      <= hugel_intercepted_m3 (sidebar defaults_all_on) 130
         + hugel_overflow_m3 (sidebar defaults_all_on) 130
      /\ hugel_intercepted_m3 (sidebar defaults_all_on) 130
         + hugel_overflow_m3 (sidebar defaults_all_on) 130
         <= 130 * hug_intercept_share (sidebar defaults_all_on)
            * (1 + 1e-9)).
Proof.
  apply (hugel_intercepted_plus_overflow_up_to_rounding
           (sidebar defaults_all_on) 130).
  reflexivity.
Defined.

(** ** Rooftop harvesting *)


(** C1 (the code at the scenario of the claim): with harvesting on, a
    roof of 400 m2, 10 units of 1000 L, a first flush of 2 mm and
    P = 80 mm the script computes a capacity of 10000, not 10; the whole
    yield of 31.2 m3 is captured and the overflow is 0, not 21.2. *)
Theorem rooftop_scenario_capacity_is_10000 :
  total_rooftop_storage_m3 (sidebar scenario_harvesting) == 10000
  /\ roof_yield_m3 (sidebar scenario_harvesting) == 31.2
  /\ captured_roof_m3 (sidebar scenario_harvesting) == 31.2
  /\ roof_overflow_m3 (sidebar scenario_harvesting) == 0
  /\ ~ total_rooftop_storage_m3 (sidebar scenario_harvesting)
       == w_storage_per_unit_L scenario_harvesting
          * inject_Z (w_n_units scenario_harvesting) / 1000.
Proof.
  repeat split; try (vm_compute; reflexivity).
  vm_compute. discriminate.
Qed.

(** ** The baseline scenario *)

(** The retention and the initial abstraction of the scenario P = 80 mm,
    area 3000 m2, base CN 85, moderate slope, every measure off. *)
Lemma baseline_scenario_S_Ia :
  retention_S (25400.0 / CN_effective (sidebar defaults_all_off)) == 762 # 17
  /\ abstraction_Ia
       (retention_S (25400.0 / CN_effective (sidebar defaults_all_off)))
     == 762 # 85.
Proof. split; vm_compute; reflexivity. Qed.

Lemma baseline_scenario_exact :
  exists q b,
    Q_mm (sidebar defaults_all_off) = Some q
    /\ baseline_runoff_m3 (sidebar defaults_all_off) = Some b
    /\ q == 9114361 # 209270 /\ b == 27343083 # 209270.
Proof.
  do 2 eexists. split; [vm_compute; reflexivity|].
  split; [vm_compute; reflexivity|].
  split; vm_compute; reflexivity.
Qed.

(** C2 as stated fails: at that input the retention is not 43.76 mm
    (to two decimals) and the baseline runoff volume is not within 0.1 m3
    of 132.45 m3. *)
Lemma baseline_scenario_not_132_45 :
  exists b,
    baseline_runoff_m3 (sidebar defaults_all_off) = Some b
    /\ ~ (132.45 - 0.1 <= b /\ b <= 132.45 + 0.1)
    /\ ~ (43.76 - 0.005
          <= retention_S (25400.0 / CN_effective (sidebar defaults_all_off))
          /\ retention_S (25400.0 / CN_effective (sidebar defaults_all_off))
             <= 43.76 + 0.005).
Proof.
  destruct baseline_scenario_exact as (q & b & _ & Hb & _ & Eb).
  destruct baseline_scenario_S_Ia as [ES _].
  exists b. split; [assumption|]. split.
  - rewrite Eb. intros [H _]. revert H. vm_compute. intro H. now apply H.
  - rewrite ES. intros [_ H]. revert H. vm_compute. intro H. now apply H.
Qed.

(** C2, amended: at that input S = 25400/85 - 254 = 762/17 (44.82 mm),
    Ia = 762/85 (8.965 mm), the runoff depth is 43.55 mm to two decimals
    and the baseline runoff volume is within 0.1 m3 of 130.66 m3. *)
Theorem baseline_scenario_130_66 :
  exists q b,
    Q_mm (sidebar defaults_all_off) = Some q
    /\ baseline_runoff_m3 (sidebar defaults_all_off) = Some b
    /\ retention_S (25400.0 / CN_effective (sidebar defaults_all_off))
       == 25400 / 85 - 254
    /\ 44.82 - 0.005
       <= retention_S (25400.0 / CN_effective (sidebar defaults_all_off))
       <= 44.82 + 0.005
    /\ 8.965 - 0.0005
       <= abstraction_Ia
            (retention_S (25400.0 / CN_effective (sidebar defaults_all_off)))
       <= 8.965 + 0.0005
    /\ q == (80 - 762 / 85) ^ 2 / (80 + 0.8 * (762 / 17))
    /\ 43.55 - 0.005 <= q <= 43.55 + 0.005
    /\ 130.66 - 0.1 <= b <= 130.66 + 0.1.
Proof.
  destruct baseline_scenario_exact as (q & b & Hq & Hb & Eq & Eb).
  destruct baseline_scenario_S_Ia as [ES EI].
  exists q, b. split; [assumption|]. split; [assumption|].
  set (S := retention_S _) in *.
  set (Ia := abstraction_Ia S) in *.
  clearbody Ia. clearbody S. clear Hq Hb.
  assert (E1 : 25400 / 85 - 254 == 762 # 17) by (vm_compute; reflexivity).
  assert (E2 : (80 - 762 / 85) ^ 2 / (80 + 0.8 * (762 / 17))
               == 9114361 # 209270) by (vm_compute; reflexivity).
  repeat split; lra.
Qed.

(** ** The settings the sidebar produces *)

Lemma percent_share (p : Q) :
  0 <= p -> p <= 100 -> 0 <= p / 100.0 /\ p / 100.0 <= 1.
Proof.
  intros H0 H1. split.
  - apply Qle_shift_div_l; lra.
  - apply Qle_shift_div_r; lra.
Qed.

Lemma hugel_storage_m3_nonneg (w : Widgets) :
  valid w -> 0 <= hugel_storage_m3 (sidebar w).
Proof.
  intros [].
  unfold hugel_storage_m3, hugel_core_vol_m3. sidebar_fields.
  destruct (w_hug_on w).
  - pose proof (inject_Z_nonneg _ v_beds0).
    repeat apply Qmult_le_0_compat; lra.
  - vm_compute. discriminate.
Qed.

Lemma pp_direct_infiltration_m3_nonneg (w : Widgets) :
  valid w -> 0 <= pp_direct_infiltration_m3 (sidebar w).
Proof.
  intros [].
  unfold pp_direct_infiltration_m3, pp_incident_rain_m3,
    m3_from_mm_over_area.
  sidebar_fields.
  destruct (w_pp_on w); [|lra].
  destruct (percent_share _ v_ppi_lo0 v_ppi_hi0).
  repeat apply Qmult_le_0_compat; try lra.
  all: vm_compute; discriminate.
Qed.


Lemma CN_effective_sidebar_bounds (w : Widgets) :
  valid w ->
  28.5 <= CN_effective (sidebar w)
  /\ CN_effective (sidebar w)
     <= w_base_CN w * slope_factor_of (w_slope_note w).
Proof.
  intros Hv. pose proof Hv as [].
  destruct (sidebar_delta_nonneg w v_vet_delta0 v_pp_delta0
              v_ppf_lo0 v_ppf_hi0) as (A & B & C & D).
  split.
  - destruct (CN_after_pp_bounds (sidebar w) v_CN_lo0 A B C D) as [Hlo _].
    unfold CN_effective. sidebar_fields.
    pose proof (slope_factor_of_bounds (w_slope_note w)) as [Hs _].
    set (c := CN_after_pp (sidebar w)) in *.
    set (f := slope_factor_of (w_slope_note w)) in *.
    assert (0 <= (c - 30) * (f - 0.95)) by (apply Qmult_le_0_compat; lra).
    nra.
  - apply CN_sidebar_le_base_slope; assumption.
Qed.

(** ** What a completed run shows *)

Lemma evaluate_inv (s : Settings) (r : Balance) :
  evaluate s = Some r ->
  exists b ratio sc,
    baseline_runoff_m3 s = Some b
    /\ reduction_ratio s b = Some ratio
    /\ score s b = Some sc
    /\ r = {|
      r_CN_effective := CN_effective s;
      r_baseline_runoff_m3 := b;
      r_roof_yield_m3 := roof_yield_m3 s;
      r_captured_roof_m3 := captured_roof_m3 s;
      r_roof_overflow_m3 := roof_overflow_m3 s;
      r_hugel_storage_m3 := hugel_storage_m3 s;
      r_hugel_intercepted_m3 := hugel_intercepted_m3 s b;
      r_hugel_overflow_m3 := hugel_overflow_m3 s b;
      r_pp_direct_infiltration_m3 := pp_direct_infiltration_m3 s;
      r_vetiver_extra_infiltration_m3 := vetiver_extra_infiltration_m3 s b;
      r_effective_runoff_m3 := effective_runoff_m3 s b;
      r_reduction_ratio := ratio;
      r_score := sc
    |}.
Proof.
  unfold evaluate. intro H.
  destruct (baseline_runoff_m3 s) as [b|]; [|discriminate].
  cbn [bind] in H.
  destruct (reduction_ratio s b) as [ratio|] eqn:Er; [|discriminate].
  cbn [bind] in H.
  destruct (score s b) as [sc|] eqn:Es; [|discriminate].
  cbn [bind] in H. injection H as <-.
  exists b, ratio, sc. split; [reflexivity|].
  split; [assumption|]. split; [assumption | reflexivity].
Qed.

Lemma evaluate_some (s : Settings) (b ratio sc : Q) :
  baseline_runoff_m3 s = Some b ->
  reduction_ratio s b = Some ratio ->
  score s b = Some sc ->
  exists r, evaluate s = Some r /\ r_score r = sc
            /\ r_baseline_runoff_m3 r = b /\ r_reduction_ratio r = ratio.
Proof.
  intros Hb Hr Hs. unfold evaluate. rewrite Hb. cbn [bind].
  rewrite Hr. cbn [bind]. rewrite Hs. cbn [bind].
  eexists. split; [reflexivity|]. repeat split; reflexivity.
Qed.

(** ** The combiner *)

Lemma effective_runoff_m3_combiner (s : Settings) (b : Q) :
  effective_runoff_m3 s b
  == combiner_Reffective
       (combiner_R2
          (combiner_R1 b (hugel_intercepted_m3 s b)
             (vetiver_extra_infiltration_m3 s b) (hugel_overflow_m3 s b))
          (pp_direct_infiltration_m3 s))
       (roof_overflow_m3 s).
Proof.
  unfold effective_runoff_m3, combiner_Reffective, combiner_R2, combiner_R1.
  cbv zeta.
  set (i := hugel_intercepted_m3 s b).
  set (v := vetiver_extra_infiltration_m3 s b).
  set (o := hugel_overflow_m3 s b).
  set (p := pp_direct_infiltration_m3 s).
  set (ro := roof_overflow_m3 s).
  clearbody i v o p ro.
  pose proof (Q.max_spec 0.0 (b - i - v)) as H1.
  pose proof (Q.max_spec 0 (b - i - v)) as H2.
  set (m1 := Qmax 0.0 (b - i - v)) in *.
  set (m2 := Qmax 0 (b - i - v)) in *.
  clearbody m1 m2.
  assert (E : m1 == m2) by lra.
  pose proof (Q.max_spec 0.0 (m1 + o - p)) as H3.
  pose proof (Q.max_spec 0 (m2 + o - p)) as H4.
  set (n1 := Qmax 0.0 (m1 + o - p)) in *.
  set (n2 := Qmax 0 (m2 + o - p)) in *.
  clearbody n1 n2. lra.
Qed.

(** C5: in the values a run shows, the effective runoff is
    R1 = max(0, baseline - intercepted - hedgerowExtra) + moundOverflow,
    R2 = max(0, R1 - pavementInfiltration), Reffective = R2 + roofOverflow;
    the rooftop overflow is added outside both floors, so the effective
    runoff is never below it. *)
Theorem effective_runoff_is_combiner (s : Settings) (r : Balance) :
  evaluate s = Some r ->
  r_effective_runoff_m3 r
  == combiner_Reffective
       (combiner_R2
          (combiner_R1 (r_baseline_runoff_m3 r) (r_hugel_intercepted_m3 r)
             (r_vetiver_extra_infiltration_m3 r) (r_hugel_overflow_m3 r))
          (r_pp_direct_infiltration_m3 r))
       (r_roof_overflow_m3 r)
  /\ r_roof_overflow_m3 r <= r_effective_runoff_m3 r.
Proof.
  intro H. apply evaluate_inv in H.
  destruct H as (b & ratio & sc & _ & _ & _ & ->).
  cbn [r_effective_runoff_m3 r_baseline_runoff_m3 r_hugel_intercepted_m3
       r_vetiver_extra_infiltration_m3 r_hugel_overflow_m3
       r_pp_direct_infiltration_m3 r_roof_overflow_m3].
  pose proof (effective_runoff_m3_combiner s b) as E.
  split; [exact E|].
  rewrite E. unfold combiner_Reffective, combiner_R2.
  minmax_cases. lra.
Qed.

Lemma defaults_all_on_runs :
  exists r, evaluate (sidebar defaults_all_on) = Some r.
Proof. eexists. vm_compute. reflexivity. Qed.

Lemma effective_runoff_is_combiner_witness :
  exists r,
    evaluate (sidebar defaults_all_on) = Some r
    /\ r_effective_runoff_m3 r
       == combiner_Reffective
            (combiner_R2
               (combiner_R1 (r_baseline_runoff_m3 r)
                  (r_hugel_intercepted_m3 r)
                  (r_vetiver_extra_infiltration_m3 r)
                  (r_hugel_overflow_m3 r))
               (r_pp_direct_infiltration_m3 r))
            (r_roof_overflow_m3 r)
       /\ r_roof_overflow_m3 r <= r_effective_runoff_m3 r.
Proof.
  eexists. split.
  - vm_compute. reflexivity.
  - apply (effective_runoff_is_combiner (sidebar defaults_all_on)).
    vm_compute. reflexivity.
Defined.

(** ** Disabled measures *)

Lemma harvesting_off_volumes (w : Widgets) :
  w_harv_on w = false ->
  roof_yield_m3 (sidebar w) == 0
  /\ captured_roof_m3 (sidebar w) == 0
  /\ roof_overflow_m3 (sidebar w) == 0.
Proof.
  intro Hoff.
  assert (Ey : roof_yield_m3 (sidebar w) == 0).
  { unfold roof_yield_m3, harvest_P_effective_mm, m3_from_mm_over_area.
    sidebar_fields. rewrite Hoff. field. }
  assert (Ec : captured_roof_m3 (sidebar w) == 0).
  { unfold captured_roof_m3. sidebar_fields. rewrite Hoff. reflexivity. }
  split; [assumption|]. split; [assumption|].
  unfold roof_overflow_m3.
  set (y := roof_yield_m3 (sidebar w)) in *.
  set (c := captured_roof_m3 (sidebar w)) in *.
  clearbody y c. minmax_cases. lra.
Qed.

Lemma hugel_off_volumes (w : Widgets) (b : Q) :
  w_hug_on w = false ->
  hugel_intercepted_m3 (sidebar w) b == 0
  /\ hugel_overflow_m3 (sidebar w) b == 0
  /\ exists t, score_hugel_term (sidebar w) b = Some t /\ t == 0.
Proof.
  intro Hoff.
  assert (Ei : hugel_intercepted_m3 (sidebar w) b == 0).
  { unfold hugel_intercepted_m3. sidebar_fields. rewrite Hoff. reflexivity. }
  split; [assumption|]. split.
  - unfold hugel_overflow_m3.
    set (i := hugel_intercepted_m3 (sidebar w) b) in *. clearbody i.
    sidebar_fields. rewrite Hoff.
    assert (E0 : b * 0.0 == 0) by ring.
    set (x := b * 0.0) in *. clearbody x.
    minmax_cases. lra.
  - unfold score_hugel_term, hugel_intercepted_m3, hugel_storage_m3,
      hugel_core_vol_m3.
    sidebar_fields. rewrite Hoff.
    eexists. split; [vm_compute; reflexivity|].
    vm_compute. reflexivity.
Qed.

Lemma pp_off_volumes (w : Widgets) :
  w_pp_on w = false ->
  pp_direct_infiltration_m3 (sidebar w) == 0
  /\ score_pp_term (sidebar w) == 0
  /\ CN_after_pp (sidebar w) == CN_after_vetiver (sidebar w).
Proof.
  intro Hoff.
  unfold pp_direct_infiltration_m3, score_pp_term, CN_after_pp.
  sidebar_fields. rewrite Hoff.
  repeat split; try reflexivity; vm_compute; reflexivity.
Qed.

Lemma vetiver_off_volumes (w : Widgets) (b : Q) :
  w_vetiver_on w = false ->
  vetiver_extra_infiltration_m3 (sidebar w) b == 0
  /\ vetiver_CN_delta (sidebar w) == 0
  /\ CN_after_vetiver (sidebar w) == w_base_CN w
  /\ score_vetiver_term (sidebar w) == 0.
Proof.
  intro Hoff.
  unfold vetiver_extra_infiltration_m3, score_vetiver_term, CN_after_vetiver.
  sidebar_fields. rewrite Hoff.
  repeat split; try reflexivity; vm_compute; reflexivity.
Qed.

(** C8: in what a run shows, a disabled measure contributes exactly 0:
    harvesting off gives roof yield, captured volume and roof overflow 0;
    mound beds off gives intercepted volume and overflow 0 and a score
    term of 0; pavement off gives direct infiltration 0 and a score term
    of 0; hedgerow off gives extra infiltration 0, a curve-number
    reduction of 0 (the curve number after the hedgerow step is the base
    one) and a score term of 0. *)
Theorem disabled_measure_contributes_zero (w : Widgets) (r : Balance) :
  run w = Some r ->
  (w_harv_on w = false ->
     r_roof_yield_m3 r == 0 /\ r_captured_roof_m3 r == 0
     /\ r_roof_overflow_m3 r == 0)
  /\ (w_hug_on w = false ->
        r_hugel_intercepted_m3 r == 0 /\ r_hugel_overflow_m3 r == 0
        /\ exists t,
             score_hugel_term (sidebar w) (r_baseline_runoff_m3 r) = Some t
             /\ t == 0)
  /\ (w_pp_on w = false ->
        r_pp_direct_infiltration_m3 r == 0
        /\ score_pp_term (sidebar w) == 0)
  /\ (w_vetiver_on w = false ->
        r_vetiver_extra_infiltration_m3 r == 0
        /\ vetiver_CN_delta (sidebar w) == 0
        /\ CN_after_vetiver (sidebar w) == w_base_CN w
        /\ score_vetiver_term (sidebar w) == 0).
Proof.
  unfold run. intro H. apply evaluate_inv in H.
  destruct H as (b & ratio & sc & _ & _ & _ & ->).
  cbn [r_roof_yield_m3 r_captured_roof_m3 r_roof_overflow_m3
       r_hugel_intercepted_m3 r_hugel_overflow_m3 r_baseline_runoff_m3
       r_pp_direct_infiltration_m3 r_vetiver_extra_infiltration_m3].
  split; [|split; [|split]]; intro Hoff.
  - now apply harvesting_off_volumes.
  - now apply hugel_off_volumes.
  - destruct (pp_off_volumes w Hoff) as (A & B & _). now split.
  - now apply vetiver_off_volumes.
Qed.

Lemma defaults_all_off_runs :
  exists r, run defaults_all_off = Some r.
Proof. eexists. vm_compute. reflexivity. Qed.

Lemma disabled_measure_contributes_zero_witness :
  exists r,
    run defaults_all_off = Some r
    /\ (r_roof_yield_m3 r == 0 /\ r_captured_roof_m3 r == 0
        /\ r_roof_overflow_m3 r == 0)
    /\ (r_hugel_intercepted_m3 r == 0 /\ r_hugel_overflow_m3 r == 0
        /\ exists t,
             score_hugel_term (sidebar defaults_all_off)
               (r_baseline_runoff_m3 r) = Some t
             /\ t == 0)
    /\ (r_pp_direct_infiltration_m3 r == 0
        /\ score_pp_term (sidebar defaults_all_off) == 0)
    /\ (r_vetiver_extra_infiltration_m3 r == 0
        /\ vetiver_CN_delta (sidebar defaults_all_off) == 0
        /\ CN_after_vetiver (sidebar defaults_all_off)
           == w_base_CN defaults_all_off
        /\ score_vetiver_term (sidebar defaults_all_off) == 0).
Proof.
  eexists. split; [vm_compute; reflexivity|].
  match goal with
  | |- context [r_roof_yield_m3 ?r] =>
      destruct (disabled_measure_contributes_zero defaults_all_off r)
        as (A & B & C & D); [vm_compute; reflexivity|]
  end.
  split; [apply A; reflexivity|].
  split; [apply B; reflexivity|].
  split; [apply C; reflexivity | apply D; reflexivity].
Defined.

(** ** A road without runoff *)

Section DryRoad.

Variable s : Settings.
Variable b : Q.
Hypothesis Hb : b == 0.
Hypothesis Hstorage : 0 <= hugel_storage_m3 s.
Hypothesis Hpp : 0 <= pp_direct_infiltration_m3 s.

Lemma dry_hugel_intercepted : hugel_intercepted_m3 s b == 0.
Proof.
  unfold hugel_intercepted_m3.
  destruct (hug_on s); [|reflexivity].
  assert (E : b * hug_intercept_share s == 0) by (rewrite Hb; ring).
  set (x := b * hug_intercept_share s) in *.
  set (c := hugel_storage_m3 s) in *.
  clearbody x c. minmax_cases. lra.
Qed.

Lemma dry_hugel_overflow : hugel_overflow_m3 s b == 0.
Proof.
  unfold hugel_overflow_m3.
  pose proof dry_hugel_intercepted as Ei.
  assert (E : b * hug_intercept_share s == 0) by (rewrite Hb; ring).
  set (x := b * hug_intercept_share s) in *.
  set (i := hugel_intercepted_m3 s b) in *.
  clearbody x i. minmax_cases. lra.
Qed.

Lemma dry_vetiver_extra : vetiver_extra_infiltration_m3 s b == 0.
Proof.
  unfold vetiver_extra_infiltration_m3, remaining_runoff_after_hugel.
  destruct (vetiver_on s); [|reflexivity].
  pose proof dry_hugel_intercepted as Ei.
  set (i := hugel_intercepted_m3 s b) in *. clearbody i.
  pose proof Hb as Hb'.
  minmax_cases.
  assert (Em : m == 0) by lra.
  rewrite Em. ring.
Qed.

Lemma dry_effective_runoff : effective_runoff_m3 s b == roof_overflow_m3 s.
Proof.
  unfold effective_runoff_m3. cbv zeta.
  pose proof dry_hugel_intercepted as Ei.
  pose proof dry_hugel_overflow as Eo.
  pose proof dry_vetiver_extra as Ev.
  pose proof Hb as Hb'. pose proof Hpp as Hpp'.
  set (i := hugel_intercepted_m3 s b) in *.
  set (o := hugel_overflow_m3 s b) in *.
  set (v := vetiver_extra_infiltration_m3 s b) in *.
  set (p := pp_direct_infiltration_m3 s) in *.
  set (ro := roof_overflow_m3 s) in *.
  clearbody i o v p ro.
  pose proof (Q.max_spec 0.0 (b - i - v)) as H1.
  set (m1 := Qmax 0.0 (b - i - v)) in *. clearbody m1.
  pose proof (Q.max_spec 0.0 (m1 + o - p)) as H2.
  set (m2 := Qmax 0.0 (m1 + o - p)) in *. clearbody m2.
  lra.
Qed.

Lemma dry_reduction_ratio :
  exists q, reduction_ratio s b = Some q
            /\ q == 1 - roof_overflow_m3 s / 1e-9.
Proof.
  unfold reduction_ratio.
  rewrite fdiv_some by (rewrite Hb; vm_compute; discriminate).
  cbn [bind]. eexists. split; [reflexivity|].
  rewrite dry_effective_runoff, Hb.
  field. vm_compute. discriminate.
Qed.

End DryRoad.

Lemma baseline_runoff_m3_inv (s : Settings) (b : Q) :
  baseline_runoff_m3 s = Some b ->
  exists q, scs_runoff_depth_mm (P_mm s) (CN_effective s) = Some q
            /\ b = m3_from_mm_over_area q (catchment_area_m2 s).
Proof.
  unfold baseline_runoff_m3, Q_mm.
  destruct (scs_runoff_depth_mm (P_mm s) (CN_effective s)) as [q|];
    [|discriminate].
  cbn [bind]. intro H. injection H as <-.
  exists q. split; reflexivity.
Qed.

(** C3, amended: for a valid input whose baseline runoff volume is 0 the
    reduction ratio is computed (no division fault) and is
    1 - rooftopOverflow / 1e-9; it is 1 when the rooftop overflow is 0. *)
Theorem reduction_ratio_at_zero_baseline (w : Widgets) (b : Q) :
  valid w ->
  baseline_runoff_m3 (sidebar w) = Some b ->
  b == 0 ->
  exists q,
    reduction_ratio (sidebar w) b = Some q
    /\ q == 1 - roof_overflow_m3 (sidebar w) / 1e-9
    /\ (roof_overflow_m3 (sidebar w) == 0 -> q == 1).
Proof.
  intros Hv _ Hb.
  destruct (dry_reduction_ratio (sidebar w) b Hb
              (hugel_storage_m3_nonneg w Hv)
              (pp_direct_infiltration_m3_nonneg w Hv)) as (q & Hq & Eq).
  exists q. split; [assumption|]. split; [assumption|].
  intro H0. rewrite Eq, H0. field. vm_compute. discriminate.
Qed.

Lemma reduction_ratio_at_zero_baseline_witness :
  exists q,
    reduction_ratio (sidebar dry_road) (0.0 / 1000.0 * 3000.0) = Some q
    /\ q == 1 - roof_overflow_m3 (sidebar dry_road) / 1e-9
    /\ (roof_overflow_m3 (sidebar dry_road) == 0 -> q == 1).
Proof.
  apply (reduction_ratio_at_zero_baseline dry_road (0.0 / 1000.0 * 3000.0)).
  - apply validb_sound. vm_compute. reflexivity.
  - vm_compute. reflexivity.
  - vm_compute. reflexivity.
Defined.

(** C3 as stated fails: on a valid input with a baseline runoff volume of
    0 and a rooftop overflow of 7.2 m3 the reduction ratio is
    1 - 7.2e9, not 1. *)
Lemma reduction_ratio_not_1_with_roof_overflow :
  valid dry_road_roof_overflow
  /\ exists b q,
       baseline_runoff_m3 (sidebar dry_road_roof_overflow) = Some b
       /\ b == 0
       /\ roof_overflow_m3 (sidebar dry_road_roof_overflow) == 7.2
       /\ reduction_ratio (sidebar dry_road_roof_overflow) b = Some q
       /\ q == 1 - 7200000000
       /\ ~ q == 1.
Proof.
  split.
  - apply validb_sound. vm_compute. reflexivity.
  - do 2 eexists.
    split; [vm_compute; reflexivity|].
    split; [vm_compute; reflexivity|].
    split; [vm_compute; reflexivity|].
    split; [vm_compute; reflexivity|].
    split; [vm_compute; reflexivity|].
    vm_compute. discriminate.
Qed.

(** ** The protection score *)


Lemma np_clip_bounds (x lo hi : Q) :
  lo <= hi -> lo <= np_clip x lo hi /\ np_clip x lo hi <= hi.
Proof.
  intro H. unfold np_clip. minmax_cases. lra.
Qed.

Lemma score_in_range (s : Settings) (b sc : Q) :
  score s b = Some sc -> 0 <= sc /\ sc <= 100.
Proof.
  unfold score.
  destruct (reduction_ratio s b) as [ratio|]; [|discriminate].
  cbn [bind].
  destruct (score_hugel_term s b) as [h|]; [|discriminate].
  cbn [bind]. intro H. injection H as <-.
  apply np_clip_bounds. lra.
Qed.

(** With an effective curve number of at most 100 the baseline runoff is
    computed and is non-negative. *)
Lemma baseline_runoff_m3_total (w : Widgets) :
  valid w -> CN_effective (sidebar w) <= 100 ->
  exists b, baseline_runoff_m3 (sidebar w) = Some b /\ 0 <= b.
Proof.
  intros Hv Hcn.
  destruct (CN_effective_sidebar_bounds w Hv) as [Hlo _].
  pose proof Hv as [].
  assert (H0 : 0 < CN_effective (sidebar w)) by lra.
  assert (HP : 0 <= P_mm (sidebar w)) by (sidebar_fields; lra).
  destruct (scs_depth_returns_nonneg _ _ H0 Hcn HP)
    as (q & Hq & Hq0).
  unfold baseline_runoff_m3, Q_mm. rewrite Hq. cbn [bind].
  eexists. split; [reflexivity|].
  unfold m3_from_mm_over_area. sidebar_fields.
  apply Qmult_le_0_compat; [|lra].
  apply Qle_shift_div_l; lra.
Qed.

Lemma score_total (w : Widgets) (b : Q) :
  valid w -> 0 <= b ->
  exists ratio sc,
    reduction_ratio (sidebar w) b = Some ratio
    /\ score (sidebar w) b = Some sc.
Proof.
  intros Hv Hb.
  pose proof (hugel_storage_m3_nonneg w Hv) as Hst.
  assert (Hr : exists ratio, reduction_ratio (sidebar w) b = Some ratio).
  { unfold reduction_ratio. rewrite fdiv_some by guard_positive.
    cbn [bind]. eexists. reflexivity. }
  destruct Hr as [ratio Hr].
  exists ratio. unfold score, score_hugel_term.
  rewrite Hr. cbn [bind].
  rewrite fdiv_some by guard_positive. cbn [bind].
  eexists. split; reflexivity.
Qed.

(** Every base curve number the slider allows (at most 95) keeps the
    effective curve number below 100. *)
Lemma slider_CN_effective_le_100 (w : Widgets) :
  valid w -> w_base_CN w <= 95 -> CN_effective (sidebar w) <= 100.
Proof.
  intros Hv H95.
  destruct (CN_effective_sidebar_bounds w Hv) as [_ Hhi].
  pose proof Hv as [].
  pose proof (slope_factor_of_bounds (w_slope_note w)) as [Hs0 Hs1].
  set (c := w_base_CN w) in *.
  set (f := slope_factor_of (w_slope_note w)) in *.
  assert (0 <= (95 - c) * f) by (apply Qmult_le_0_compat; lra).
  assert (c * f <= 95 * 1.05) by nra.
  lra.
Qed.

(** * Further properties of the script *)

(** ** The runoff-depth calculator: bounds *)

Lemma depth_quotient_bounds (P S : Q) :
  0 <= S -> 0.2 * S < P ->
  0 < (P - 0.2 * S) ^ 2 / (P + 0.8 * S)
  /\ (P - 0.2 * S) ^ 2 / (P + 0.8 * S) <= P - 0.2 * S.
Proof.
  intros HS HP. rewrite Qsquare.
  set (u := P - 0.2 * S).
  assert (Hu : 0 < u) by (unfold u; lra).
  assert (Hd : 0 < P + 0.8 * S) by lra.
  split.
  - apply Qlt_shift_div_l; [assumption|].
    assert (0 < u * u) by (apply Qmult_lt_0_compat; assumption).
    lra.
  - apply Qle_shift_div_r; [assumption|].
    assert (0 <= u * (P + 0.8 * S - u)).
    { apply Qmult_le_0_compat; unfold u; lra. }
    assert (E : u * (P + 0.8 * S) == u * u + u * (P + 0.8 * S - u)) by ring.
    lra.
Qed.

Lemma Qle_times_one_plus_guard (x y : Q) :
  0 <= y -> x <= y -> x <= y * (1 + 1e-9).
Proof.
  intros Hy Hxy.
  assert (Ht : 0 < 1e-9) by reflexivity.
  set (t := 1e-9) in *. clearbody t.
  assert (0 <= y * t) by (apply Qmult_le_0_compat; lra).
  assert (E : y * (1 + t) == y + y * t) by ring.
  lra.
Qed.

Lemma Qle_times_one_minus_guard (x y : Q) :
  0 <= y -> y <= x -> y * (1 - 1e-9) <= x.
Proof.
  intros Hy Hxy.
  assert (Ht : 0 < 1e-9) by reflexivity.
  set (t := 1e-9) in *. clearbody t.
  assert (0 <= y * t) by (apply Qmult_le_0_compat; lra).
  assert (E : y * (1 - t) == y - y * t) by ring.
  lra.
Qed.

(** X2: for a curve number in (0,100] and a storm depth between 1e-100
    and 1e154 mm the calculator returns a depth between 0 and the storm
    depth (up to rounding: at most P (1 + 1e-9)), and the depth is positive
    as soon as the storm exceeds the initial abstraction. *)
Theorem scs_runoff_depth_at_most_rain (P CN : Q) :
  0 < CN -> CN <= 100 -> 1e-100 <= P -> P <= 1e154 ->
  exists q,
    scs_runoff_depth_mm P CN = Some q
    /\ 0 <= q
    /\ q <= P * (1 + 1e-9)
    /\ (0.2 * retention_S (25400.0 / CN) < P -> 0 < q).
Proof.
  intros H0 H1 HP _.
  assert (Hlo : 0 < 1e-100) by reflexivity.
  assert (HP0 : 0 <= P) by lra.
  pose proof (retention_S_nonneg CN H0 H1) as HS.
  destruct (scs_runoff_depth_cases P CN H0 H1) as [[Hle ->] | [Hlt ->]];
    eexists; (split; [reflexivity|]).
  - split; [lra|]. split; [|intro; lra].
    apply Qle_times_one_plus_guard; lra.
  - destruct (depth_quotient_bounds _ _ HS Hlt) as [Hpos Hup].
    split; [lra|]. split; [|intros _; exact Hpos].
    apply Qle_times_one_plus_guard; lra.
Qed.

Lemma scs_runoff_depth_at_most_rain_witness :
  exists q,
    scs_runoff_depth_mm 80 85 = Some q
    /\ 0 <= q
    /\ q <= 80 * (1 + 1e-9)
    /\ (0.2 * retention_S (25400.0 / 85) < 80 -> 0 < q).
Proof.
  apply (scs_runoff_depth_at_most_rain 80 85);
    vm_compute; first [reflexivity | discriminate].
Defined.

(** X3: at a curve number of 100 nothing is retained: for a storm depth
    between 1e-100 and 1e154 mm the runoff depth is the storm depth up to
    rounding (within a relative 1e-9). *)
Theorem scs_runoff_depth_CN_100 (P : Q) :
  1e-100 <= P -> P <= 1e154 ->
  exists q,
    scs_runoff_depth_mm P 100 = Some q
    /\ P * (1 - 1e-9) <= q /\ q <= P * (1 + 1e-9).
Proof.
  intros HP _.
  assert (Hlo : 0 < 1e-100) by reflexivity.
  assert (ES : retention_S (25400.0 / 100) == 0) by (vm_compute; reflexivity).
  assert (H0 : 0 < 100) by reflexivity.
  assert (H1 : 100 <= 100) by lra.
  destruct (scs_runoff_depth_cases P 100 H0 H1) as [[Hle ->] | [Hlt ->]];
    eexists; (split; [reflexivity|]).
  - exfalso. lra.
  - set (S := retention_S (25400.0 / 100)) in *. clearbody S.
    assert (E : (P - 0.2 * S) ^ 2 / (P + 0.8 * S) == P).
    { rewrite Qsquare, ES. field. lra. }
    rewrite E. split.
    + apply Qle_times_one_minus_guard; lra.
    + apply Qle_times_one_plus_guard; lra.
Qed.

Lemma scs_runoff_depth_CN_100_witness :
  exists q,
    scs_runoff_depth_mm 80 100 = Some q
    /\ 80 * (1 - 1e-9) <= q /\ q <= 80 * (1 + 1e-9).
Proof.
  apply (scs_runoff_depth_CN_100 80);
    vm_compute; first [reflexivity | discriminate].
Defined.

(** ** Volumes of the four measures *)

Lemma Qmult_share_bounds (x f : Q) :
  0 <= x -> 0 <= f -> f <= 1 -> 0 <= x * f /\ x * f <= x.
Proof.
  intros Hx H0 H1. split.
  - apply Qmult_le_0_compat; assumption.
  - assert (0 <= x * (1 - f)) by (apply Qmult_le_0_compat; lra).
    assert (E : x * f == x - x * (1 - f)) by ring.
    lra.
Qed.






(** Facts about the road-side volumes for settings with a non-negative
    bed storage, shares in [0,1] and a non-negative baseline runoff. *)
Section RoadVolumes.

Variable s : Settings.
Variable b : Q.
Hypothesis Hb0 : 0 <= b.
Hypothesis Hstorage : 0 <= hugel_storage_m3 s.
Hypothesis Hshare0 : 0 <= hug_intercept_share s.
Hypothesis Hshare1 : hug_intercept_share s <= 1.
Hypothesis Hboost0 : 0 <= vetiver_infiltration_boost s.
Hypothesis Hboost1 : vetiver_infiltration_boost s <= 1.






End RoadVolumes.









(** ** Completed runs on valid inputs *)








(** ** Where a run can fault *)

Lemma reduction_ratio_none_iff (s : Settings) (b : Q) :
  reduction_ratio s b = None <-> b + 1e-9 == 0.
Proof.
  unfold reduction_ratio, fdiv.
  destruct (Qeq_bool (b + 1e-9) 0) eqn:E; cbn [bind].
  - apply Qeq_bool_iff in E. split; [now intros _ | reflexivity].
  - apply Qeq_bool_neq in E. split; [discriminate | contradiction].
Qed.

Lemma score_hugel_term_some (w : Widgets) (b : Q) :
  valid w -> exists h, score_hugel_term (sidebar w) b = Some h.
Proof.
  intro Hv. pose proof (hugel_storage_m3_nonneg w Hv) as Hc.
  unfold score_hugel_term.
  rewrite fdiv_some by guard_positive. cbn [bind].
  eexists. reflexivity.
Qed.

(** X11: on a valid input the run ends in [ZeroDivisionError] exactly
    when the runoff-depth calculator does, or when the baseline runoff
    volume is -1e-9 (the guarded denominator of the reduction ratio is
    zero); the division by storage + 1e-9 never faults. *)
Theorem run_none_iff (w : Widgets) :
  valid w ->
  (run w = None
   <-> scs_runoff_depth_mm (P_mm (sidebar w)) (CN_effective (sidebar w))
       = None
       \/ exists b, baseline_runoff_m3 (sidebar w) = Some b
                    /\ b + 1e-9 == 0).
Proof.
  intro Hv. unfold run, evaluate.
  destruct (baseline_runoff_m3 (sidebar w)) as [b|] eqn:Eb; cbn [bind].
  - destruct (baseline_runoff_m3_inv _ _ Eb) as (q & Hq & _).
    destruct (score_hugel_term_some w b Hv) as [h Hh].
    destruct (reduction_ratio (sidebar w) b) as [ratio|] eqn:Er;
      cbn [bind].
    + unfold score. rewrite Er, Hh. cbn [bind].
      split; [discriminate|].
      intros [H | (b' & Hb' & H0)]; [congruence|].
      injection Hb' as <-.
      apply (reduction_ratio_none_iff (sidebar w)) in H0. congruence.
    + split; [|reflexivity]. intros _. right.
      exists b. split; [reflexivity|].
      now apply (reduction_ratio_none_iff (sidebar w)).
  - split; [|reflexivity]. intros _. left.
    unfold baseline_runoff_m3, Q_mm in Eb.
    destruct (scs_runoff_depth_mm (P_mm (sidebar w))
                (CN_effective (sidebar w))); [discriminate | reflexivity].
Qed.

Lemma run_none_iff_witness :
  run steep_small_storm = None
  <-> scs_runoff_depth_mm (P_mm (sidebar steep_small_storm))
        (CN_effective (sidebar steep_small_storm))
      = None
      \/ exists b, baseline_runoff_m3 (sidebar steep_small_storm) = Some b
                   /\ b + 1e-9 == 0.
Proof.
  apply (run_none_iff steep_small_storm).
  apply validb_sound. vm_compute. reflexivity.
Defined.

(** ** Inputs within the widget ranges *)

Lemma widget_rangeb_sound (w : Widgets) :
  widget_rangeb w = true -> widget_range w.
Proof.
  unfold widget_rangeb. intro H.
  unfold between_bool in H.
  repeat match goal with
  | H : (_ && _)%bool = true |- _ =>
      apply andb_true_iff in H; destruct H
  | H : Qle_bool _ _ = true |- _ => apply Qle_bool_iff in H
  | H : (_ <=? _)%Z = true |- _ => apply Z.leb_le in H
  end.
  constructor; split; assumption.
Qed.

(** What the widgets can return is within the ranges of [valid]. *)
Lemma widget_range_valid (w : Widgets) : widget_range w -> valid w.
Proof.
  intros []. constructor; try lra; lia.
Qed.

Lemma widget_range_CN_stages (w : Widgets) :
  widget_range w ->
  (CN_after_vetiver (sidebar w)
   == base_CN (sidebar w) - vetiver_CN_delta (sidebar w)
   /\ 60 <= CN_after_vetiver (sidebar w)
   /\ CN_after_vetiver (sidebar w) <= 95)
  /\ (CN_after_pp (sidebar w)
      == (1 - pp_fraction_of_catch (sidebar w)) * CN_after_vetiver (sidebar w)
         + pp_fraction_of_catch (sidebar w)
           * (CN_after_vetiver (sidebar w) - pp_CN_delta (sidebar w))
      /\ 40 <= CN_after_pp (sidebar w)
      /\ CN_after_pp (sidebar w) <= 95).
Proof.
  intros [].
  assert (Hv : CN_after_vetiver (sidebar w)
               == base_CN (sidebar w) - vetiver_CN_delta (sidebar w)
               /\ 60 <= CN_after_vetiver (sidebar w)
               /\ CN_after_vetiver (sidebar w) <= 95).
  { unfold CN_after_vetiver. cbv zeta. sidebar_fields.
    destruct (w_vetiver_on w).
    - minmax_cases. lra.
    - lra. }
  split; [exact Hv|].
  destruct Hv as (_ & Hlo & Hhi).
  unfold CN_after_pp. cbv zeta.
  set (c := CN_after_vetiver (sidebar w)) in *. clearbody c.
  sidebar_fields.
  destruct (w_pp_on w).
  - set (f := w_pp_fraction_of_catch w) in *.
    pose proof (Q.max_spec 30 (c - w_pp_CN_delta w)) as Hm.
    set (m := Qmax 30 (c - w_pp_CN_delta w)) in *.
    assert (Em : m == c - w_pp_CN_delta w) by lra.
    clearbody m.
    destruct (Qmult_share_bounds (c - m) f) as [A B]; try lra.
    assert (E : (1 - f) * c + f * m == c - (c - m) * f) by ring.
    split; [|lra].
    rewrite Em. reflexivity.
  - split; [ring | lra].
Qed.

(** X12: within the widget ranges neither floor [max(30, ...)] of the
    curve-number resolver is reached: the curve number after the hedgerow
    step is base minus vetiver delta, the effective one is
    ((1 - f) CN + f (CN - pavement delta)) x slope factor for that CN
    (delta and fraction being 0 for a measure that is off), and it lies
    between 37 and 100. *)
Theorem CN_effective_within_widget_range (w : Widgets) :
  widget_range w ->
  CN_after_vetiver (sidebar w)
  == base_CN (sidebar w) - vetiver_CN_delta (sidebar w)
  /\ CN_effective (sidebar w)
     == ((1 - pp_fraction_of_catch (sidebar w)) * CN_after_vetiver (sidebar w)
         + pp_fraction_of_catch (sidebar w)
           * (CN_after_vetiver (sidebar w) - pp_CN_delta (sidebar w)))
        * slope_factor (sidebar w)
  /\ 37 <= CN_effective (sidebar w)
  /\ CN_effective (sidebar w) < 100.
Proof.
  intro Hr.
  destruct (widget_range_CN_stages w Hr) as ((Ev & _) & (Ep & Hlo & Hhi)).
  split; [exact Ev|].
  unfold CN_effective.
  split; [rewrite Ep; reflexivity|].
  sidebar_fields.
  pose proof (slope_factor_of_bounds (w_slope_note w)) as [Hs0 Hs1].
  set (c := CN_after_pp (sidebar w)) in *.
  set (sl := slope_factor_of (w_slope_note w)) in *.
  clearbody c sl.
  assert (0 <= (c - 40) * (sl - 0.95)) by (apply Qmult_le_0_compat; lra).
  assert (0 <= (95 - c) * (1.05 - sl)) by (apply Qmult_le_0_compat; lra).
  assert (0 <= c * (1.05 - sl)) by (apply Qmult_le_0_compat; lra).
  split; nra.
Qed.

Lemma CN_effective_within_widget_range_witness :
  CN_after_vetiver (sidebar defaults_all_on)
  == base_CN (sidebar defaults_all_on)
     - vetiver_CN_delta (sidebar defaults_all_on)
  /\ CN_effective (sidebar defaults_all_on)
     == ((1 - pp_fraction_of_catch (sidebar defaults_all_on))
         * CN_after_vetiver (sidebar defaults_all_on)
         + pp_fraction_of_catch (sidebar defaults_all_on)
           * (CN_after_vetiver (sidebar defaults_all_on)
              - pp_CN_delta (sidebar defaults_all_on)))
        * slope_factor (sidebar defaults_all_on)
  /\ 37 <= CN_effective (sidebar defaults_all_on)
  /\ CN_effective (sidebar defaults_all_on) < 100.
Proof.
  apply (CN_effective_within_widget_range defaults_all_on).
  apply widget_rangeb_sound. vm_compute. reflexivity.
Defined.

Lemma widget_range_CN_le_100 (w : Widgets) :
  widget_range w -> CN_effective (sidebar w) <= 100.
Proof.
  intro Hr.
  apply slider_CN_effective_le_100.
  - now apply widget_range_valid.
  - destruct Hr. lra.
Qed.

(** X13: on every input the widgets can return the script runs to the
    end: no division faults, the baseline runoff is non-negative and the
    score shown is in [0,100]. *)
Theorem run_completes_within_widget_range (w : Widgets) :
  widget_range w ->
  exists r,
    run w = Some r
    /\ 0 <= r_baseline_runoff_m3 r
    /\ 0 <= r_score r /\ r_score r <= 100.
Proof.
  intro Hr.
  pose proof (widget_range_valid w Hr) as Hv.
  pose proof (widget_range_CN_le_100 w Hr) as Hcn.
  destruct (baseline_runoff_m3_total w Hv Hcn) as (b & Hb & Hb0).
  destruct (score_total w b Hv Hb0) as (ratio & sc & Hratio & Hs).
  destruct (evaluate_some _ _ _ _ Hb Hratio Hs) as (r & Hrun & Esc & Eb & _).
  exists r. split; [exact Hrun|].
  rewrite Eb, Esc. split; [exact Hb0|].
  exact (score_in_range _ _ _ Hs).
Qed.

Lemma run_completes_within_widget_range_witness :
  exists r,
    run defaults_all_on = Some r
    /\ 0 <= r_baseline_runoff_m3 r
    /\ 0 <= r_score r /\ r_score r <= 100.
Proof.
  apply (run_completes_within_widget_range defaults_all_on).
  apply widget_rangeb_sound. vm_compute. reflexivity.
Defined.

(** ** Switching a measure on *)







(** X16: the usable bed storage of a valid input is between 0 and the
    geometric core volume of the beds (porosity and border loss only take
    away), and without beds it is 0. *)
Theorem hugel_storage_within_core_volume (w : Widgets) :
  valid w ->
  0 <= hugel_storage_m3 (sidebar w)
  /\ hugel_storage_m3 (sidebar w) <= hugel_core_vol_m3 (sidebar w)
  /\ (w_n_beds w = 0%Z -> hugel_storage_m3 (sidebar w) == 0).
Proof.
  intro Hv. pose proof (hugel_storage_m3_nonneg w Hv) as H0.
  split; [exact H0|]. destruct Hv.
  unfold hugel_storage_m3 in *. unfold hugel_core_vol_m3 in *.
  sidebar_fields.
  destruct (w_hug_on w).
  - pose proof (inject_Z_nonneg _ v_beds0) as Hn.
    set (n := inject_Z (w_n_beds w)) in *.
    assert (Hvol : 0 <= n * w_bed_length_m w * w_bed_width_m w
                         * w_bed_core_depth_m w).
    { repeat apply Qmult_le_0_compat; lra. }
    set (vol := n * w_bed_length_m w * w_bed_width_m w
                * w_bed_core_depth_m w) in *.
    split.
    + destruct (Qmult_share_bounds vol (w_core_porosity w)) as [A B];
        try lra.
      destruct (Qmult_share_bounds (vol * w_core_porosity w)
                  (1.0 - w_border_loss_factor w)) as [C D]; try lra.
    + intro E. unfold vol, n. rewrite E. ring.
  - split; [vm_compute; discriminate|]. intros _. vm_compute. reflexivity.
Qed.

Lemma hugel_storage_within_core_volume_witness :
  0 <= hugel_storage_m3 (sidebar defaults_all_on)
  /\ hugel_storage_m3 (sidebar defaults_all_on)
     <= hugel_core_vol_m3 (sidebar defaults_all_on)
  /\ (w_n_beds defaults_all_on = 0%Z ->
      hugel_storage_m3 (sidebar defaults_all_on) == 0).
Proof.
  apply (hugel_storage_within_core_volume defaults_all_on).
  apply validb_sound. vm_compute. reflexivity.
Defined.

(** ** A storm the soil absorbs *)



(** ** The stacked bar chart *)

Lemma draw_bars_cons (left val : Q) (label : bar_label)
      (rest : list (bar_label * Q)) :
  draw_bars left ((label, val) :: rest)
  = ({| seg_label := label; seg_left := left; seg_width := val;
        seg_text_x := left + val / 2 |}
     :: fst (draw_bars (left + val) rest),
     snd (draw_bars (left + val) rest)).
Proof.
  cbn [draw_bars].
  destruct (draw_bars (left + val) rest) as [segs l']. reflexivity.
Qed.

Lemma draw_bars_widths_and_end (items : list (bar_label * Q)) (left : Q) :
  map seg_width (fst (draw_bars left items)) = map snd items
  /\ contiguous_from left (fst (draw_bars left items))
  /\ snd (draw_bars left items) == left + widths_sum items.
Proof.
  revert left.
  induction items as [|[label val] rest IH]; intro left.
  - cbn. repeat split. ring.
  - rewrite draw_bars_cons.
    destruct (IH (left + val)) as (Hw & Hc & Hs).
    cbn [fst snd map contiguous_from seg_width seg_left
         widths_sum fold_right].
    split; [now rewrite Hw|].
    split; [split; [reflexivity | exact Hc]|].
    rewrite Hs. unfold widths_sum. ring.
Qed.


(** X19: the chart of a run has the five segments tanks, beds, pavement,
    hedgerows, remaining runoff, in this order and laid end to end from 0;
    its right limit is 1.05 times the sum of the five volumes, and the
    unused [total] of line 248 is that sum plus 1e-9. *)
Theorem chart_of_run (r : Balance) :
  contiguous_from 0.0 (chart_segments r)
  /\ map seg_width (chart_segments r)
     = r_captured_roof_m3 r :: r_hugel_intercepted_m3 r
       :: r_pp_direct_infiltration_m3 r
       :: r_vetiver_extra_infiltration_m3 r
       :: r_effective_runoff_m3 r :: nil
  /\ snd (chart_xlim r)
     == (r_captured_roof_m3 r + r_hugel_intercepted_m3 r
         + r_pp_direct_infiltration_m3 r
         + r_vetiver_extra_infiltration_m3 r
         + r_effective_runoff_m3 r) * 1.05
  /\ map seg_label (chart_segments r)
     = Tanks_rooftop :: Hugel_intercepted :: Permeable_infiltration
       :: Vetiver_added_infiltration :: Remaining_runoff :: nil
  /\ chart_total r
     == r_captured_roof_m3 r + r_hugel_intercepted_m3 r
        + r_pp_direct_infiltration_m3 r
        + r_vetiver_extra_infiltration_m3 r
        + r_effective_runoff_m3 r + 1e-9.
Proof.
  unfold chart_segments, chart_xlim, chart_total.
  destruct (draw_bars_widths_and_end (bars r) 0.0) as (Hw & Hc & Hs).
  split; [exact Hc|]. split; [exact Hw|].
  split; [|split].
  - cbn [snd]. rewrite Hs. unfold widths_sum, bars.
    cbn [fold_right snd]. ring.
  - reflexivity.
  - unfold bars. cbn [fold_right snd]. ring.
Qed.

(** ** The score on valid inputs *)

(** C7 as stated fails in the doubles of the script: both inputs are
    valid and neither run reaches a score.  On a steep site with a base
    curve number of 99 a storm of 7.72140452140452 mm makes the
    denominator P + 0.8 S of the runoff depth zero, and a storm of 1e200 mm
    makes the square (P - Ia) ** 2 overflow. *)
Lemma double_run_raises_on_valid_input :
  Double.validb Double.steep_light_storm = true
  /\ Double.run Double.steep_light_storm
     = Double.Raise Double.ZeroDivisionError
  /\ Double.validb Double.immense_storm = true
  /\ Double.run Double.immense_storm = Double.Raise Double.OverflowError.
Proof. repeat split; vm_compute; reflexivity. Qed.

(** C7, amended: whenever a run on a valid input completes, its
    protection score lies in [0,100], also when the baseline runoff volume
    is 0; and on every valid input within the ranges of the widgets the
    run completes. *)
Theorem score_between_0_and_100 (w : Widgets) :
  valid w ->
  (forall r, run w = Some r -> 0 <= r_score r /\ r_score r <= 100)
  /\ (widget_range w ->
      exists r, run w = Some r /\ 0 <= r_score r /\ r_score r <= 100).
Proof.
  intro Hv. split.
  - intros r H. unfold run in H. apply evaluate_inv in H.
    destruct H as (b & ratio & sc & _ & _ & Hs & ->).
    cbn [r_score]. exact (score_in_range _ _ _ Hs).
  - intro Hr.
    pose proof (widget_range_CN_le_100 w Hr) as Hcn.
    destruct (baseline_runoff_m3_total w Hv Hcn) as (b & Hb & Hb0).
    destruct (score_total w b Hv Hb0) as (ratio & sc & Hratio & Hs).
    destruct (evaluate_some _ _ _ _ Hb Hratio Hs) as (r & Hrun & Esc & _).
    exists r. split; [exact Hrun|].
    rewrite Esc. exact (score_in_range _ _ _ Hs).
Qed.

Lemma score_between_0_and_100_witness :
  (forall r, run dry_road = Some r -> 0 <= r_score r /\ r_score r <= 100)
  /\ exists r, run dry_road = Some r /\ 0 <= r_score r /\ r_score r <= 100.
Proof.
  assert (Hv : valid dry_road) by (apply validb_sound; vm_compute; reflexivity).
  destruct (score_between_0_and_100 dry_road Hv) as [A B].
  split; [exact A|].
  apply B. apply widget_rangeb_sound. vm_compute. reflexivity.
Defined.
